(** * ExpiryX: the expiry and low-stock evaluation jobs

    A shallow embedding of [app/tasks/expiry_checker.py] (with the parts of
    [app/config.py], [app/models.py] and
    [app/services/notification_service.py] it reads) and the properties of
    the periodic jobs: classification, deduplication of alerts, the
    expired/inactive transition of batches, and the unit of work.

    Dates are proleptic Gregorian ordinals ([date.toordinal()]), timestamps
    are seconds of local time counted from the start of ordinal 0, and the
    relational tables are lists of rows in storage order. *)

From Stdlib Require Import ZArith List String Ascii Bool Lia DecimalString.
Import ListNotations.
Local Open Scope Z_scope.

Infix "+++" := String.append (at level 60, right associativity).

(** [str(n)] for a Python int. *)
Definition str (n : Z) : string := NilZero.string_of_int (Z.to_int n).

(** ** Calendar dates (Python's [datetime.date]) *)

Module PyDate.

Definition is_leap (year : Z) : bool :=
  (year mod 4 =? 0) && (negb (year mod 100 =? 0) || (year mod 400 =? 0)).

Definition days_before_year (year : Z) : Z :=
  let y := year - 1 in y * 365 + y / 4 - y / 100 + y / 400.

Definition DAYS_BEFORE_MONTH : list Z :=
  [-1; 0; 31; 59; 90; 120; 151; 181; 212; 243; 273; 304; 334].

Definition days_before_month (year month : Z) : Z :=
  nth (Z.to_nat month) DAYS_BEFORE_MONTH 0
  + (if (2 <? month) && is_leap year then 1 else 0).

(** [date(year, month, day).toordinal()]. *)
Definition ymd2ord (year month day : Z) : Z :=
  days_before_year year + days_before_month year month + day.

(** [date.min.toordinal()] and [date.max.toordinal()]: 0001-01-01 and
    9999-12-31. *)
Definition MINORDINAL : Z := 1.
Definition MAXORDINAL : Z := 3652059.

(** [timedelta(days=n)]: the days as they are, or the message of the
    [OverflowError] that CPython raises, for a number that does not fit a
    C [int] and for one of magnitude above 999999999. *)
Definition timedelta (days : Z) : string + Z :=
  if (days <? -2147483648) || (2147483647 <? days) then
    inl "Python int too large to convert to C int"%string
  else if 999999999 <? Z.abs days then
    inl ("days=" +++ str days +++ "; must have magnitude <= 999999999")
  else inr days.

(** [d + delta] on ordinals: an [OverflowError] when the result is no
    date. *)
Definition add (d delta : Z) : string + Z :=
  if (MINORDINAL <=? d + delta) && (d + delta <=? MAXORDINAL)
  then inr (d + delta)
  else inl "date value out of range"%string.

(** [d + timedelta(days=n)]. *)
Definition add_days (d n : Z) : string + Z :=
  match timedelta n with
  | inl msg => inl msg
  | inr delta => add d delta
  end.

(** [(d1 - d2).days]. *)
Definition days_between (d1 d2 : Z) : Z := d1 - d2.

(** A [date] bound against a [DateTime(timezone=True)] column is sent as
    the local midnight that starts the day. *)
Definition SECONDS_PER_DAY : Z := 86400.
Definition midnight (d : Z) : Z := d * SECONDS_PER_DAY.

End PyDate.

(** ** Configuration ([app/config.py]) *)

Record Settings := mkSettings {
  EXPIRY_WARNING_DAYS : Z;
  EXPIRY_CRITICAL_DAYS : Z
}.

Definition default_settings : Settings :=
  {| EXPIRY_WARNING_DAYS := 5; EXPIRY_CRITICAL_DAYS := 1 |}.

(** The process environment (and [.env] file): a variable holds text that
    the settings class reads as an integer, or text that it cannot. *)
Inductive EnvValue :=
| IntText (n : Z)
| OtherText (raw : string).

Definition Environ := list (string * EnvValue).

Fixpoint getenv (env : Environ) (key : string) : option EnvValue :=
  match env with
  | [] => None
  | (k, v) :: rest => if String.eqb k key then Some v else getenv rest key
  end.

(** ** Tables ([app/models.py]) *)

Module Product.
Record t := mk { id : Z; name : string }.
End Product.

Module Branch.
Record t := mk { id : Z; name : string }.
End Branch.

Module Batch.
Record t := mk {
  id : Z;
  batch_number : string;
  product_id : Z;
  branch_id : Z;
  initial_quantity : Z;
  current_quantity : Z;
  expiry_date : Z;
  is_active : option bool;
  is_expired : option bool;
  updated_at : option Z
}.

Definition set_is_expired (v : bool) (b : t) : t :=
  mk (id b) (batch_number b) (product_id b) (branch_id b)
     (initial_quantity b) (current_quantity b) (expiry_date b)
     (is_active b) (Some v) (updated_at b).

Definition set_is_active (v : bool) (b : t) : t :=
  mk (id b) (batch_number b) (product_id b) (branch_id b)
     (initial_quantity b) (current_quantity b) (expiry_date b)
     (Some v) (is_expired b) (updated_at b).

Definition set_updated_at (ts : Z) (b : t) : t :=
  mk (id b) (batch_number b) (product_id b) (branch_id b)
     (initial_quantity b) (current_quantity b) (expiry_date b)
     (is_active b) (is_expired b) (Some ts).
End Batch.

(** The alert's own primary key is assigned by the data store and never
    read by the jobs; it is left out. Nullable columns are options. *)
Module Alert.
Record t := mk {
  batch_id : Z;
  branch_id : Z;
  alert_level : string;
  alert_type : string;
  message : string;
  days_to_expiry : option Z;
  status : option string;
  created_at : option Z
}.

Definition set_created_at (ts : Z) (a : t) : t :=
  mk (batch_id a) (branch_id a) (alert_level a) (alert_type a) (message a)
     (days_to_expiry a) (status a) (Some ts).
End Alert.

Record Store := mkStore {
  batches : list Batch.t;
  products : list Product.t;
  branches : list Branch.t;
  alerts : list Alert.t
}.

Definition with_batches (bs : list Batch.t) (st : Store) : Store :=
  mkStore bs (products st) (branches st) (alerts st).

Definition with_alerts (al : list Alert.t) (st : Store) : Store :=
  mkStore (batches st) (products st) (branches st) al.

(** ** SQL expressions *)

(** [col == True] and [col == False] on a nullable Boolean column: a NULL
    makes the comparison unknown and the row is not selected. *)
Definition sql_is_true (c : option bool) : bool :=
  match c with Some true => true | _ => false end.

Definition sql_is_false (c : option bool) : bool :=
  match c with Some false => true | _ => false end.

Definition sql_ge (c : option Z) (v : Z) : bool :=
  match c with Some x => v <=? x | None => false end.

Definition sql_eq_str (c : option string) (v : string) : bool :=
  match c with Some x => String.eqb x v | None => false end.

(** [select(A, B).join(B, on)]: the inner join, left rows in order. *)
Definition join {A B : Type} (l : list A) (r : list B) (on : A -> B -> bool)
  : list (A * B) :=
  flat_map (fun a => map (pair a) (filter (on a) r)) l.

Definition Row : Type := Batch.t * Product.t * Branch.t.

Definition batch_product_branch (st : Store) : list Row :=
  join (join (batches st) (products st)
             (fun b p => Batch.product_id b =? Product.id p))
       (branches st)
       (fun bp br => Batch.branch_id (fst bp) =? Branch.id br).

(** ** Log records, exceptions *)

Inductive LogRecord :=
| INFO (msg : string)
| ERROR (msg : string).

Inductive Exn :=
| MultipleResultsFound
| DBAPIError (msg : string)
| NotificationError (msg : string)
| ValidationError (msg : string)
| OverflowError (msg : string).

Definition str_exn (e : Exn) : string :=
  match e with
  | MultipleResultsFound =>
      "Multiple rows were found when one or none was required"%string
  | DBAPIError msg => msg
  | NotificationError msg => msg
  | ValidationError msg => msg
  | OverflowError msg => msg
  end.

(** [Settings()]: an [int] field takes the variable of its name when it is
    set, its default otherwise; text that is no integer is a validation
    error. Nothing else is checked. *)
Definition int_field (env : Environ) (key : string) (default : Z) : Exn + Z :=
  match getenv env key with
  | None => inr default
  | Some (IntText n) => inr n
  | Some (OtherText _) => inl (ValidationError key)
  end.

Definition get_settings (env : Environ) : Exn + Settings :=
  match int_field env "EXPIRY_WARNING_DAYS" 5 with
  | inl e => inl e
  | inr warning_days =>
      match int_field env "EXPIRY_CRITICAL_DAYS" 1 with
      | inl e => inl e
      | inr critical_days => inr (mkSettings warning_days critical_days)
      end
  end.

(** ** The session: one transaction over the store *)

Record Tx := mkTx {
  database : Store;        (* what is committed *)
  txn : Store;             (* what this transaction sees *)
  new : list Alert.t;      (* objects added, not yet flushed *)
  round_trips : nat        (* statements sent so far *)
}.

Record Session := mkSession {
  tx : Tx;
  log : list LogRecord
}.

Definition M (A : Type) : Type := Session -> (Exn + A) * Session.

Definition ret {A : Type} (a : A) : M A := fun s => (inr a, s).

Definition bind {A B : Type} (m : M A) (k : A -> M B) : M B :=
  fun s => match m s with
           | (inl e, s') => (inl e, s')
           | (inr a, s') => k a s'
           end.

Definition raise {A : Type} (e : Exn) : M A := fun s => (inl e, s).

(** [try: m except Exception as e: h e]. *)
Definition try_except {A : Type} (m : M A) (h : Exn -> M A) : M A :=
  fun s => match m s with
           | (inl e, s') => h e s'
           | (inr a, s') => (inr a, s')
           end.

Declare Scope job_scope.
Delimit Scope job_scope with job.
Notation "x <- m ;; k" := (bind m (fun x => k))
  (at level 61, m at next level, right associativity) : job_scope.
Notation "m ;; k" := (bind m (fun _ => k))
  (at level 61, right associativity) : job_scope.
Local Open Scope job_scope.

Definition logger_info (msg : string) : M unit :=
  fun s => (inr tt, mkSession (tx s) (log s ++ [INFO msg])).

Definition logger_error (msg : string) : M unit :=
  fun s => (inr tt, mkSession (tx s) (log s ++ [ERROR msg])).

Definition get_tx : M Tx := fun s => (inr (tx s), s).

Definition put_tx (t : Tx) : M unit := fun s => (inr tt, mkSession t (log s)).

(** [Result.scalar_one_or_none()]. *)
Definition scalar_one_or_none {A : Type} (rows : list A) : M (option A) :=
  match rows with
  | [] => ret None
  | [x] => ret (Some x)
  | _ :: _ :: _ => raise MultipleResultsFound
  end.

(** ** What the jobs cannot control

    The calendar date of the application, the clock of the data store, the
    statements that fail, and the behaviour of the notification service. *)

Record World := mkWorld {
  date_today : Z;
  db_now : Z;
  db_fault : nat -> option string;
  mail_config_fault : option string;
  send_fault : Branch.t -> Product.t -> Batch.t -> Z -> string -> option string
}.

(** [created_at] has [server_default=func.now()]: filled in on INSERT when
    the object carries none. *)
Definition insert_default (now : Z) (a : Alert.t) : Alert.t :=
  match Alert.created_at a with
  | None => Alert.set_created_at now a
  | Some _ => a
  end.

(** The alerts a statement of this transaction sees: the session flushes
    what was added before it sends the statement. *)
Definition visible (now : Z) (t : Tx) : list Alert.t :=
  alerts (txn t) ++ map (insert_default now) (new t).

Definition flushed (now : Z) (t : Tx) : Tx :=
  mkTx (database t) (with_alerts (visible now t) (txn t)) [] (round_trips t).

Section JOBS.

Variable w : World.
Variable settings : Settings.

(** *** Session operations *)

(** One statement sent to the data store; it may fail. *)
Definition statement : M unit :=
  fun s =>
    let t := tx s in
    let s' := mkSession (mkTx (database t) (txn t) (new t) (S (round_trips t)))
                        (log s) in
    match db_fault w (round_trips t) with
    | Some msg => (inl (DBAPIError msg), s')
    | None => (inr tt, s')
    end.

Definition flush : M unit :=
  t <- get_tx ;;
  put_tx (flushed (db_now w) t).

(** [await db.execute(select ...)]: the session autoflushes first. *)
Definition execute {R : Type} (query : Store -> list R) : M (list R) :=
  statement ;;
  flush ;;
  t <- get_tx ;;
  ret (query (txn t)).

(** [db.add(obj)]. *)
Definition add (a : Alert.t) : M unit :=
  t <- get_tx ;;
  put_tx (mkTx (database t) (txn t) (new t ++ [a]) (round_trips t)).

(** Attribute assignment on a loaded [Batch]: the UPDATE of the row with
    its key, which also sets [updated_at] ([onupdate=func.now()]) to the
    clock of the data store. The jobs assign a flag only to rows they
    selected with the other value, so every assignment is a change and the
    UPDATE is sent. *)
Definition setattr (batch : Batch.t) (f : Batch.t -> Batch.t) : M unit :=
  t <- get_tx ;;
  put_tx (mkTx (database t)
               (with_batches
                  (map (fun b => if Batch.id b =? Batch.id batch
                                 then Batch.set_updated_at (db_now w) (f b)
                                 else b)
                       (batches (txn t)))
                  (txn t))
               (new t) (round_trips t)).

(** [d + timedelta(days=n)] in a job. *)
Definition date_plus_days (d n : Z) : M Z :=
  match PyDate.add_days d n with
  | inl msg => raise (OverflowError msg)
  | inr d' => ret d'
  end.

Definition commit : M unit :=
  statement ;;
  flush ;;
  t <- get_tx ;;
  put_tx (mkTx (txn t) (txn t) (new t) (round_trips t)).

Definition rollback : M unit :=
  t <- get_tx ;;
  put_tx (mkTx (database t) (database t) [] (round_trips t)).

(** *** [NotificationService] *)

Definition NotificationService : M unit :=
  match mail_config_fault w with
  | Some msg => raise (NotificationError msg)
  | None => ret tt
  end.

Definition send_expiry_alert (branch : Branch.t) (product : Product.t)
  (batch : Batch.t) (days_remaining : Z) (alert_level : string) : M unit :=
  match send_fault w branch product batch days_remaining alert_level with
  | Some msg =>
      logger_error ("Error sending notification: " +++ msg) ;;
      raise (NotificationError msg)
  | None =>
      logger_info ("Alert notification prepared for " +++ Branch.name branch
                   +++ ": " +++ Product.name product +++ " expires in "
                   +++ str days_remaining +++ " days")
  end.

(** *** [check_expiring_batches] *)

(** Lines 42-49: the [where] clause of the candidates. *)
Definition expiring_soon (today warning_date : Z) (batch : Batch.t) : bool :=
  sql_is_true (Batch.is_active batch)
  && (today <? Batch.expiry_date batch)
  && (Batch.expiry_date batch <=? warning_date)
  && (0 <? Batch.current_quantity batch).

Definition select_expiring (today warning_date : Z) (st : Store) : list Row :=
  filter (fun '(batch, _, _) => expiring_soon today warning_date batch)
         (batch_product_branch st).

(** Lines 80-86. *)
Definition alert_since (batch_id : Z) (alert_type : string) (today : Z)
  (a : Alert.t) : bool :=
  (Alert.batch_id a =? batch_id)
  && String.eqb (Alert.alert_type a) alert_type
  && sql_ge (Alert.created_at a) (PyDate.midnight today).

Definition select_alert_today (batch_id : Z) (alert_type : string) (today : Z)
  (st : Store) : list Alert.t :=
  filter (alert_since batch_id alert_type today) (alerts st).

(** Lines 123-129. *)
Definition expired_due (today : Z) (batch : Batch.t) : bool :=
  sql_is_true (Batch.is_active batch)
  && (Batch.expiry_date batch <=? today)
  && sql_is_false (Batch.is_expired batch).

Definition select_expired (today : Z) (st : Store) : list Batch.t :=
  filter (expired_due today) (batches st).

(** Line 61: the test that picks the branch. *)
Definition is_critical (today : Z) (batch : Batch.t) : bool :=
  PyDate.days_between (Batch.expiry_date batch) today
  <=? EXPIRY_CRITICAL_DAYS settings.

(** Lines 58-76: level, type and message of a candidate. *)
Definition alert_fields (today : Z) (batch : Batch.t) (product : Product.t)
  : string * string * string :=
  let days_remaining := PyDate.days_between (Batch.expiry_date batch) today in
  if is_critical today batch then
    ("critical", "expiry_critical",
     "CRITICAL: " +++ Product.name product +++ " (Batch: "
     +++ Batch.batch_number batch +++ ") expires in " +++ str days_remaining
     +++ " day(s)! " +++ str (Batch.current_quantity batch)
     +++ " units remaining.")%string
  else
    ("warning", "expiry_warning",
     "WARNING: " +++ Product.name product +++ " (Batch: "
     +++ Batch.batch_number batch +++ ") expires in " +++ str days_remaining
     +++ " days. " +++ str (Batch.current_quantity batch)
     +++ " units remaining.")%string.

Definition expiry_alert (today : Z) (row : Row) : Alert.t :=
  let '(batch, product, branch) := row in
  let '(alert_level, alert_type, message) := alert_fields today batch product in
  Alert.mk (Batch.id batch) (Branch.id branch) alert_level alert_type message
           (Some (PyDate.days_between (Batch.expiry_date batch) today))
           (Some "pending"%string) None.

(** Lines 57-118: the loop over [batches_to_alert]. *)
Fixpoint alert_loop (today : Z) (batches_to_alert : list Row)
  (alerts_created notifications_sent : Z) : M (Z * Z) :=
  match batches_to_alert with
  | [] => ret (alerts_created, notifications_sent)
  | (batch, product, branch) :: rest =>
      let days_remaining :=
        PyDate.days_between (Batch.expiry_date batch) today in
      let '(alert_level, alert_type, _) := alert_fields today batch product in
      existing_alert <-
        execute (select_alert_today (Batch.id batch) alert_type today) ;;
      found <- scalar_one_or_none existing_alert ;;
      match found with
      | Some _ => alert_loop today rest alerts_created notifications_sent
      | None =>
          add (expiry_alert today (batch, product, branch)) ;;
          sent <-
            try_except
              (NotificationService ;;
               send_expiry_alert branch product batch days_remaining
                                 alert_level ;;
               ret (notifications_sent + 1))
              (fun e =>
                 logger_error ("Failed to send notification: " +++ str_exn e) ;;
                 ret notifications_sent) ;;
          alert_loop today rest (alerts_created + 1) sent
      end
  end.

(** Lines 135-138. *)
Fixpoint expired_loop (expired_batches : list Batch.t) (expired_count : Z)
  : M Z :=
  match expired_batches with
  | [] => ret expired_count
  | batch :: rest =>
      setattr batch (Batch.set_is_expired true) ;;
      setattr batch (Batch.set_is_active false) ;;
      expired_loop rest (expired_count + 1)
  end.

(** The body of the [try]. *)
Definition expiry_pass : M unit :=
  let today := date_today w in
  warning_date <- date_plus_days today (EXPIRY_WARNING_DAYS settings) ;;
  critical_date <- date_plus_days today (EXPIRY_CRITICAL_DAYS settings) ;;
  batches_to_alert <- execute (select_expiring today warning_date) ;;
  counts <- alert_loop today batches_to_alert 0 0 ;;
  expired_batches <- execute (select_expired today) ;;
  expired_count <- expired_loop expired_batches 0 ;;
  commit ;;
  logger_info ("Expiry check completed: " +++ str (fst counts)
               +++ " alerts created, " +++ str (snd counts)
               +++ " notifications sent, " +++ str expired_count
               +++ " batches marked as expired").

Definition check_expiring_batches : M unit :=
  logger_info "Starting expiry check task..." ;;
  try_except expiry_pass
    (fun e =>
       logger_error ("Error in expiry check task: " +++ str_exn e) ;;
       rollback).

(** *** [check_low_stock] *)

Definition LOW_STOCK_THRESHOLD : Z := 5.

Definition low_stock (batch : Batch.t) : bool :=
  sql_is_true (Batch.is_active batch)
  && (0 <? Batch.current_quantity batch)
  && (Batch.current_quantity batch <=? LOW_STOCK_THRESHOLD).

Definition select_low_stock (st : Store) : list Row :=
  filter (fun '(batch, _, _) => low_stock batch) (batch_product_branch st).

Definition pending_low_stock (batch_id : Z) (a : Alert.t) : bool :=
  (Alert.batch_id a =? batch_id)
  && String.eqb (Alert.alert_type a) "low_stock"
  && sql_eq_str (Alert.status a) "pending".

Definition select_pending_low_stock (batch_id : Z) (st : Store)
  : list Alert.t :=
  filter (pending_low_stock batch_id) (alerts st).

Definition low_stock_alert (row : Row) : Alert.t :=
  let '(batch, product, branch) := row in
  Alert.mk (Batch.id batch) (Branch.id branch) "info" "low_stock"
           ("LOW STOCK: " +++ Product.name product +++ " (Batch: "
            +++ Batch.batch_number batch +++ ") has only "
            +++ str (Batch.current_quantity batch) +++ " units remaining.")
           None (Some "pending"%string) None.

Fixpoint low_stock_loop (low_stock_batches : list Row) (alerts_created : Z)
  : M Z :=
  match low_stock_batches with
  | [] => ret alerts_created
  | (batch, product, branch) :: rest =>
      existing_alert <- execute (select_pending_low_stock (Batch.id batch)) ;;
      found <- scalar_one_or_none existing_alert ;;
      match found with
      | Some _ => low_stock_loop rest alerts_created
      | None =>
          add (low_stock_alert (batch, product, branch)) ;;
          low_stock_loop rest (alerts_created + 1)
      end
  end.

Definition low_stock_pass : M unit :=
  low_stock_batches <- execute select_low_stock ;;
  alerts_created <- low_stock_loop low_stock_batches 0 ;;
  commit ;;
  logger_info ("Low stock check completed: " +++ str alerts_created
               +++ " alerts created").

Definition check_low_stock : M unit :=
  logger_info "Starting low stock check..." ;;
  try_except low_stock_pass
    (fun e =>
       logger_error ("Error in low stock check: " +++ str_exn e) ;;
       rollback).

End JOBS.

(** [async with AsyncSessionLocal() as db]: a fresh transaction over the
    store; what the store holds when the block is left. *)
Definition open_session (st : Store) : Session :=
  mkSession (mkTx st st [] 0) [].

Definition persisted (r : (Exn + unit) * Session) : Store :=
  database (tx (snd r)).

Definition run_expiry (w : World) (settings : Settings) (st : Store) : Store :=
  persisted (check_expiring_batches w settings (open_session st)).

Definition run_low_stock (w : World) (st : Store) : Store :=
  persisted (check_low_stock w (open_session st)).

(** Process start ([app/main.py], [start_expiry_checker]): the settings are
    read, and the expiry job is scheduled to run at once. *)
Definition startup (env : Environ) (w : World) (st : Store) : Exn + Store :=
  match get_settings env with
  | inl e => inl e
  | inr settings => inr (run_expiry w settings st)
  end.

(** ** The classifier of the specification *)

Inductive Tier := tier_none | tier_warning | tier_critical | tier_expired.

(** The classifier in the words of the specification (section 4.1). *)
Definition classify_spec (expiry_date today warning_days critical_days : Z)
  : Tier :=
  if expiry_date <=? today then tier_expired
  else if (today <? expiry_date) && (expiry_date <=? today + critical_days)
       then tier_critical
  else if (today + critical_days <? expiry_date)
          && (expiry_date <=? today + warning_days)
       then tier_warning
  else tier_none.

Definition alert_type_of (settings : Settings) (today : Z) (batch : Batch.t)
  : string :=
  if is_critical settings today batch then "expiry_critical"
  else "expiry_warning".

Definition alert_level_of (settings : Settings) (today : Z) (batch : Batch.t)
  : string :=
  if is_critical settings today batch then "critical" else "warning".

Definition row_batch (row : Row) : Batch.t := fst (fst row).

(** ** The passes as functions of the store

    What a pass leaves behind when no statement fails, written without the
    session; the lemmas below show that the jobs compute it. *)

(** The rows of today's alerts that the lookup of a candidate returns. *)
Definition expiry_lookup (settings : Settings) (today : Z)
  (vis : list Alert.t) (row : Row) : list Alert.t :=
  filter (alert_since (Batch.id (row_batch row))
                      (alert_type_of settings today (row_batch row)) today)
         vis.

Definition stamped_alert (settings : Settings) (today now : Z) (row : Row)
  : Alert.t :=
  insert_default now (expiry_alert settings today row).

(** The candidates that get an alert, in order; [None] when a lookup finds
    more than one row. *)
Fixpoint fresh_rows (settings : Settings) (today now : Z)
  (vis : list Alert.t) (rows : list Row) : option (list Row) :=
  match rows with
  | [] => Some []
  | row :: rest =>
      match expiry_lookup settings today vis row with
      | [] =>
          option_map (cons row)
            (fresh_rows settings today now
               (vis ++ [stamped_alert settings today now row]) rest)
      | [_] => fresh_rows settings today now vis rest
      | _ :: _ :: _ => None
      end
  end.

(** Lines 34-35: the two dates of the window, when both exist. *)
Definition window (settings : Settings) (today : Z) : option (Z * Z) :=
  match PyDate.add_days today (EXPIRY_WARNING_DAYS settings) with
  | inr warning_date =>
      match PyDate.add_days today (EXPIRY_CRITICAL_DAYS settings) with
      | inr critical_date => Some (warning_date, critical_date)
      | inl _ => None
      end
  | inl _ => None
  end.

(** The row of a batch once the UPDATE of lines 136-137 has reached it. *)
Definition mark_expired (now : Z) (b : Batch.t) : Batch.t :=
  Batch.set_updated_at now
    (Batch.set_is_active false (Batch.set_is_expired true b)).

Definition mark_ids (now : Z) (ids : list Z) (bs : list Batch.t)
  : list Batch.t :=
  map (fun b => if existsb (Z.eqb (Batch.id b)) ids then mark_expired now b
                else b)
      bs.

Definition expire_all (today now : Z) (bs : list Batch.t) : list Batch.t :=
  mark_ids now (map Batch.id (filter (expired_due today) bs)) bs.

Definition expiry_result (settings : Settings) (today now : Z) (st : Store)
  : option Store :=
  match window settings today with
  | Some (warning_date, _) =>
      match fresh_rows settings today now (alerts st)
              (select_expiring today warning_date st) with
      | Some fresh =>
          Some (mkStore (expire_all today now (batches st)) (products st)
                        (branches st)
                        (alerts st
                         ++ map (stamped_alert settings today now) fresh))
      | None => None
      end
  | None => None
  end.

Definition low_stock_lookup (vis : list Alert.t) (row : Row) : list Alert.t :=
  filter (pending_low_stock (Batch.id (row_batch row))) vis.

Fixpoint fresh_low_stock (now : Z) (vis : list Alert.t) (rows : list Row)
  : option (list Row) :=
  match rows with
  | [] => Some []
  | row :: rest =>
      match low_stock_lookup vis row with
      | [] =>
          option_map (cons row)
            (fresh_low_stock now
               (vis ++ [insert_default now (low_stock_alert row)]) rest)
      | [_] => fresh_low_stock now vis rest
      | _ :: _ :: _ => None
      end
  end.

Definition low_stock_result (now : Z) (st : Store) : option Store :=
  match fresh_low_stock now (alerts st) (select_low_stock st) with
  | Some fresh =>
      Some (with_alerts
              (alerts st
               ++ map (fun row => insert_default now (low_stock_alert row))
                      fresh)
              st)
  | None => None
  end.

(** What the notification service writes to the log for a candidate. *)
Definition gateway_log (w : World) (settings : Settings) (today : Z)
  (row : Row) : list LogRecord :=
  let '(batch, product, branch) := row in
  match mail_config_fault w with
  | Some msg => [ERROR ("Failed to send notification: " +++ msg)]
  | None =>
      match send_fault w branch product batch
              (PyDate.days_between (Batch.expiry_date batch) today)
              (alert_level_of settings today batch) with
      | Some msg => [ERROR ("Error sending notification: " +++ msg);
                     ERROR ("Failed to send notification: " +++ msg)]
      | None =>
          [INFO ("Alert notification prepared for " +++ Branch.name branch
                 +++ ": " +++ Product.name product +++ " expires in "
                 +++ str (PyDate.days_between (Batch.expiry_date batch) today)
                 +++ " days")]
      end
  end.

Definition gateway_ok (w : World) (settings : Settings) (today : Z)
  (row : Row) : bool :=
  let '(batch, product, branch) := row in
  match mail_config_fault w with
  | Some _ => false
  | None =>
      match send_fault w branch product batch
              (PyDate.days_between (Batch.expiry_date batch) today)
              (alert_level_of settings today batch) with
      | Some _ => false
      | None => true
      end
  end.

(** ** Vocabulary of the statements *)

(** The transaction after one more statement went out. *)
Definition sent (t : Tx) : Tx :=
  mkTx (database t) (txn t) (new t) (S (round_trips t)).

(** Between two points of a pass: nothing is committed, the batch, product
    and branch rows are as they were, and [added] is what the transaction
    now sees on top of the alerts it saw. *)
Definition only_added (now : Z) (t t' : Tx) (added : list Alert.t) : Prop :=
  database t' = database t
  /\ batches (txn t') = batches (txn t)
  /\ products (txn t') = products (txn t)
  /\ branches (txn t') = branches (txn t)
  /\ visible now t' = visible now t ++ added.

(** No statement of the pass fails. *)
Definition calm (w : World) : Prop := forall n, db_fault w n = None.

(** The application's calendar date is the date of the data store's clock. *)
Definition clock_ok (w : World) : Prop :=
  PyDate.midnight (date_today w) <= db_now w
  < PyDate.midnight (date_today w + 1).

(** The session the job opens, once it has logged that it starts. *)
Definition expiry_attempt (w : World) (settings : Settings) (st : Store)
  : (Exn + unit) * Session :=
  expiry_pass w settings
    (mkSession (mkTx st st [] 0) [INFO "Starting expiry check task..."]).

Definition low_stock_attempt (w : World) (st : Store)
  : (Exn + unit) * Session :=
  low_stock_pass w
    (mkSession (mkTx st st [] 0) [INFO "Starting low stock check..."]).

Definition raised {A : Type} (r : (Exn + A) * Session) : option Exn :=
  match fst r with inl e => Some e | inr _ => None end.

(** Keys and references of the schema: batch ids are a primary key, and
    the product and the branch a batch refers to exist, once. *)
Fixpoint distinct (l : list Z) : bool :=
  match l with
  | [] => true
  | x :: rest => negb (existsb (Z.eqb x) rest) && distinct rest
  end.

Definition refers_once {A : Type} (key : A -> Z) (table : list A) (k : Z)
  : bool :=
  match filter (fun r => k =? key r) table with
  | [_] => true
  | _ => false
  end.

Definition wf_store (st : Store) : bool :=
  distinct (map Batch.id (batches st))
  && forallb (refers_once Product.id (products st))
             (map Batch.product_id (batches st))
  && forallb (refers_once Branch.id (branches st))
             (map Batch.branch_id (batches st)).

(** Lines 34-35 raise nothing. *)
Definition window_ok (settings : Settings) (today : Z) : bool :=
  match window settings today with Some _ => true | None => false end.

(** The candidates of the expiry pass: the rows of its first query, none
    when the pass fails before it. *)
Definition candidates (settings : Settings) (today : Z) (st : Store)
  : list Row :=
  match window settings today with
  | Some (warning_date, _) => select_expiring today warning_date st
  | None => []
  end.

(** The alert rows a run has added: alerts are only ever appended. *)
Definition added_alerts (st st' : Store) : list Alert.t :=
  skipn (List.length (alerts st)) (alerts st').

Definition no_alert_yet (settings : Settings) (today : Z)
  (vis : list Alert.t) (row : Row) : bool :=
  match expiry_lookup settings today vis row with
  | [] => true
  | _ :: _ => false
  end.

Definition at_most_one {A : Type} (l : list A) : bool :=
  match l with
  | _ :: _ :: _ => false
  | _ => true
  end.

(** No lookup of the pass finds more than one row. *)
Definition dedup_ok (settings : Settings) (today : Z) (st : Store) : bool :=
  forallb (fun row => at_most_one (expiry_lookup settings today (alerts st) row))
          (candidates settings today st).

Definition no_pending_yet (vis : list Alert.t) (row : Row) : bool :=
  match low_stock_lookup vis row with
  | [] => true
  | _ :: _ => false
  end.

Definition low_stock_dedup_ok (st : Store) : bool :=
  forallb (fun row => at_most_one (low_stock_lookup (alerts st) row))
          (select_low_stock st).

(** The alerts of a batch and a type among [l]. *)
Definition alerts_for (batch_id : Z) (alert_type : string)
  (l : list Alert.t) : list Alert.t :=
  filter (fun a => (Alert.batch_id a =? batch_id)
                   && String.eqb (Alert.alert_type a) alert_type) l.

Definition row_key (row : Row) : Z := Batch.id (row_batch row).

(** Lines 135-138 on one row. *)
Definition expire (today now : Z) (b : Batch.t) : Batch.t :=
  if expired_due today b then mark_expired now b else b.

(** No alert of the list is dated at or after the midnight that starts
    [day]. *)
Definition none_since (day : Z) (l : list Alert.t) : bool :=
  forallb (fun a => negb (sql_ge (Alert.created_at a) (PyDate.midnight day))) l.

(** The invariant of the batch flags (section 3 of the specification). *)
Definition flags_ok (b : Batch.t) : Prop :=
  Batch.is_expired b = Some true -> Batch.is_active b = Some false.

(** ** A store and a world to run the jobs on *)

Definition june10 : Z := PyDate.ymd2ord 2024 6 10.

(** 01:00 on 2024-06-10, nothing fails. *)
Definition quiet_world : World :=
  mkWorld june10 (PyDate.midnight june10 + 3600) (fun _ => None) None
          (fun _ _ _ _ _ => None).

(** The same hour, the mail configuration is rejected on every call. *)
Definition no_mail_world : World :=
  mkWorld june10 (PyDate.midnight june10 + 3600) (fun _ => None)
          (Some "mail configuration rejected"%string) (fun _ _ _ _ _ => None).

(** The same hour, the fifth statement fails: over [sample_store] that is
    the commit, after the candidates, two lookups and the expired batches. *)
Definition failing_commit_world : World :=
  mkWorld june10 (PyDate.midnight june10 + 3600)
          (fun n => if Nat.eqb n 4 then Some "connection lost"%string else None)
          None (fun _ _ _ _ _ => None).

(** 01:00 on 2024-06-11. *)
Definition next_day_world : World :=
  mkWorld (june10 + 1) (PyDate.midnight (june10 + 1) + 3600) (fun _ => None)
          None (fun _ _ _ _ _ => None).

Definition sample_store : Store :=
  mkStore
    [Batch.mk 1 "B-001" 10 20 12 5 (june10 + 1) (Some true) (Some false) None;
     Batch.mk 2 "B-002" 10 20 12 6 (june10 + 5) (Some true) (Some false) None;
     Batch.mk 3 "B-003" 11 20 12 3 (june10 - 1) (Some true) (Some false) None;
     Batch.mk 4 "B-004" 11 20 12 0 (june10 + 2) (Some true) (Some false) None]
    [Product.mk 10 "Milk"; Product.mk 11 "Curd"]
    [Branch.mk 20 "Main"]
    [].

(** Two alerts of today for batch 2 and the type it gets today. *)
Definition twice_alerted_store : Store :=
  with_alerts
    [Alert.mk 2 20 "warning" "expiry_warning" "first" (Some 5)
              (Some "pending"%string) (Some (PyDate.midnight june10 + 60));
     Alert.mk 2 20 "warning" "expiry_warning" "second" (Some 5)
              (Some "pending"%string) (Some (PyDate.midnight june10 + 61))]
    sample_store.

(** Two worlds that differ at most in the notification service. *)
Definition same_data (w w' : World) : Prop :=
  date_today w' = date_today w
  /\ db_now w' = db_now w
  /\ forall n, db_fault w' n = db_fault w n.

(** Two runs that leave the same transaction and end the same way, with
    results related by [RA]. *)
Definition agree {A : Type} (RA : A -> A -> Prop)
  (r r' : (Exn + A) * Session) : Prop :=
  tx (snd r) = tx (snd r')
  /\ match fst r, fst r' with
     | inl e, inl e' => e = e'
     | inr a, inr a' => RA a a'
     | _, _ => False
     end.

Definition inverted_env : Environ :=
  [("EXPIRY_CRITICAL_DAYS"%string, IntText 7)].

(** ** More worlds to run the jobs on *)

(** 01:00 on 2024-06-10; the fourth statement fails: over [sample_store]
    that is the commit of the low-stock pass, after the candidates and two
    lookups. *)
Definition failing_low_stock_commit_world : World :=
  mkWorld june10 (PyDate.midnight june10 + 3600)
          (fun n => if Nat.eqb n 3 then Some "connection lost"%string else None)
          None (fun _ _ _ _ _ => None).

(** Two pending low-stock alerts for batch 1. *)
Definition twice_low_stock_store : Store :=
  with_alerts
    [Alert.mk 1 20 "info" "low_stock" "first" None
              (Some "pending"%string) (Some (PyDate.midnight june10 - 7200));
     Alert.mk 1 20 "info" "low_stock" "second" None
              (Some "pending"%string) (Some (PyDate.midnight june10 - 3600))]
    sample_store.

(** Lines 142-147: the record a pass of the expiry job logs when it is
    done. *)
Definition completed_message (alerts_created notifications_sent
  expired_count : Z) : string :=
  "Expiry check completed: " +++ str alerts_created +++ " alerts created, "
  +++ str notifications_sent +++ " notifications sent, "
  +++ str expired_count +++ " batches marked as expired".

(** The candidates of a pass that get an alert when no lookup finds two
    rows. *)
Definition alerted (settings : Settings) (today : Z) (st : Store)
  : list Row :=
  filter (no_alert_yet settings today (alerts st))
         (candidates settings today st).

(** The statement of a pass of the expiry job that commits it: after the
    candidates, one lookup for each of them, and the expired batches. *)
Definition commit_statement (settings : Settings) (today : Z) (st : Store)
  : nat :=
  2 + List.length (candidates settings today st).

(** An alert of three days ago for batch 3, which has expired since. *)
Definition old_alert : Alert.t :=
  Alert.mk 3 20 "warning" "expiry_warning" "old" (Some 2)
           (Some "acknowledged"%string) (Some (PyDate.midnight (june10 - 3))).

Definition old_alert_store : Store := with_alerts [old_alert] sample_store.

(** * Properties *)

(** ** One step of each session operation *)

Lemma execute_run {R : Type} (w : World) (q : Store -> list R) (s : Session) :
  execute w q s =
  match db_fault w (round_trips (tx s)) with
  | Some msg => (inl (DBAPIError msg), mkSession (sent (tx s)) (log s))
  | None =>
      (inr (q (txn (flushed (db_now w) (tx s)))),
       mkSession (sent (flushed (db_now w) (tx s))) (log s))
  end.
Proof.
  unfold execute, bind, statement.
  destruct (db_fault w (round_trips (tx s))); reflexivity.
Qed.

Lemma commit_run (w : World) (s : Session) :
  commit w s =
  match db_fault w (round_trips (tx s)) with
  | Some msg => (inl (DBAPIError msg), mkSession (sent (tx s)) (log s))
  | None =>
      let t := sent (flushed (db_now w) (tx s)) in
      (inr tt, mkSession (mkTx (txn t) (txn t) [] (round_trips t)) (log s))
  end.
Proof.
  unfold commit, bind, statement.
  destruct (db_fault w (round_trips (tx s))); reflexivity.
Qed.

Lemma gateway_block_run (w : World) (settings : Settings) (today : Z)
  (batch : Batch.t) (product : Product.t) (branch : Branch.t) (ns : Z)
  (s : Session) :
  try_except
    (NotificationService w ;;
     send_expiry_alert w branch product batch
       (PyDate.days_between (Batch.expiry_date batch) today)
       (alert_level_of settings today batch) ;;
     ret (ns + 1))
    (fun e =>
       logger_error ("Failed to send notification: " +++ str_exn e) ;;
       ret ns) s
  = (inr (if gateway_ok w settings today (batch, product, branch)
          then ns + 1 else ns),
     mkSession (tx s)
       (log s ++ gateway_log w settings today (batch, product, branch))).
Proof.
  unfold try_except, bind, NotificationService, send_expiry_alert,
    gateway_ok, gateway_log.
  destruct (mail_config_fault w) as [msg|]; simpl; [reflexivity|].
  destruct (send_fault w branch product batch _ _) as [msg|]; simpl.
  - rewrite <- app_assoc. reflexivity.
  - reflexivity.
Qed.

Lemma alert_loop_cons (w : World) (settings : Settings) (today : Z)
  (row : Row) (rest : list Row) (ac ns : Z) (s : Session) :
  alert_loop w settings today (row :: rest) ac ns s =
  match db_fault w (round_trips (tx s)) with
  | Some msg => (inl (DBAPIError msg), mkSession (sent (tx s)) (log s))
  | None =>
      let t1 := sent (flushed (db_now w) (tx s)) in
      match expiry_lookup settings today (visible (db_now w) (tx s)) row with
      | [] =>
          alert_loop w settings today rest (ac + 1)
            (if gateway_ok w settings today row then ns + 1 else ns)
            (mkSession
               (mkTx (database t1) (txn t1) [expiry_alert settings today row]
                     (round_trips t1))
               (log s ++ gateway_log w settings today row))
      | [_] => alert_loop w settings today rest ac ns (mkSession t1 (log s))
      | _ :: _ :: _ => (inl MultipleResultsFound, mkSession t1 (log s))
      end
  end.
Proof.
  destruct row as [[batch product] branch].
  cbn [alert_loop].
  unfold alert_fields, expiry_lookup, alert_type_of, row_batch.
  cbn [fst snd].
  destruct (is_critical settings today batch) eqn:Hc.
  all: unfold bind at 1; rewrite execute_run.
  all: destruct (db_fault w (round_trips (tx s))); [reflexivity|].
  all: unfold select_alert_today; cbn [txn flushed alerts with_alerts].
  all: match goal with
       | |- context [filter ?p ?l] => destruct (filter p l) as [|a [|a' l']]
       end.
  all: try reflexivity.
  all: cbn [scalar_one_or_none]; unfold bind at 1; cbn [ret].
  all: unfold bind at 1; cbn [add get_tx put_tx bind].
  all: unfold bind at 1.
  all: pose proof (gateway_block_run w settings today batch product branch ns)
         as G; unfold alert_level_of in G; rewrite Hc in G; rewrite G.
  all: reflexivity.
Qed.

Lemma only_added_refl (now : Z) (t : Tx) : only_added now t t [].
Proof. unfold only_added. rewrite app_nil_r. auto. Qed.

Lemma alert_loop_spec (w : World) (settings : Settings) (today : Z)
  (rows : list Row) :
  forall (ac ns : Z) (s : Session),
  match alert_loop w settings today rows ac ns s with
  | (inr (ac', ns'), s') =>
      exists fresh,
        fresh_rows settings today (db_now w) (visible (db_now w) (tx s)) rows
        = Some fresh
        /\ only_added (db_now w) (tx s) (tx s')
             (map (stamped_alert settings today (db_now w)) fresh)
        /\ log s' = log s ++ flat_map (gateway_log w settings today) fresh
        /\ ac' = ac + Z.of_nat (List.length fresh)
        /\ ns' = ns + Z.of_nat
                        (List.length (filter (gateway_ok w settings today) fresh))
  | (inl MultipleResultsFound, _) =>
      fresh_rows settings today (db_now w) (visible (db_now w) (tx s)) rows
      = None
  | (inl (DBAPIError msg), _) => exists n, db_fault w n = Some msg
  | (inl _, _) => False
  end.
Proof.
  induction rows as [|row rest IH]; intros ac ns s.
  - cbn. exists []. cbn. rewrite app_nil_r.
    split; [reflexivity|]. split; [apply only_added_refl|].
    split; [reflexivity|]. cbn. split; lia.
  - rewrite alert_loop_cons. cbn [fresh_rows].
    destruct (db_fault w (round_trips (tx s))) as [msg|] eqn:Hf.
    { eauto. }
    cbv zeta.
    destruct (expiry_lookup settings today (visible (db_now w) (tx s)) row)
      as [|a [|a' l']].
    + match goal with
      | |- context [alert_loop w settings today rest ?ac1 ?ns1 ?s1] =>
          specialize (IH ac1 ns1 s1);
          destruct (alert_loop w settings today rest ac1 ns1 s1)
            as [[e|[ac' ns']] s'];
          replace (visible (db_now w) (tx s1))
            with (visible (db_now w) (tx s)
                  ++ [stamped_alert settings today (db_now w) row]) in IH
            by (unfold visible, stamped_alert; cbn; reflexivity)
      end.
      * destruct e; auto. rewrite IH. reflexivity.
      * destruct IH as (fresh & Hfr & Hadd & Hlog & Hac & Hns).
        exists (row :: fresh). rewrite Hfr. cbn [option_map].
        split; [reflexivity|].
        split.
        { destruct Hadd as (Hd & Hb & Hp & Hbr & Hv).
          unfold only_added. cbn in Hd, Hb, Hp, Hbr, Hv.
          rewrite Hd, Hb, Hp, Hbr, Hv. cbn [map].
          repeat split; auto.
          unfold stamped_alert. rewrite <- app_assoc. reflexivity. }
        split.
        { rewrite Hlog. cbn [log flat_map]. rewrite app_assoc. reflexivity. }
        cbn [filter List.length].
        destruct (gateway_ok w settings today row); cbn [List.length]; lia.
    + match goal with
      | |- context [alert_loop w settings today rest ?ac1 ?ns1 ?s1] =>
          specialize (IH ac1 ns1 s1);
          destruct (alert_loop w settings today rest ac1 ns1 s1)
            as [[e|[ac' ns']] s'];
          replace (visible (db_now w) (tx s1))
            with (visible (db_now w) (tx s)) in IH
            by (unfold visible; cbn; rewrite app_nil_r; reflexivity)
      end.
      * exact IH.
      * destruct IH as (fresh & Hfr & Hadd & Hlog & Hac & Hns).
        exists fresh. split; [exact Hfr|].
        split.
        { destruct Hadd as (Hd & Hb & Hp & Hbr & Hv).
          unfold only_added. cbn in Hd, Hb, Hp, Hbr, Hv.
          rewrite Hd, Hb, Hp, Hbr, Hv.
          repeat split; auto.
          rewrite app_nil_r. reflexivity. }
        auto.
    + reflexivity.
Qed.

Lemma alert_loop_database (w : World) (settings : Settings) (today : Z)
  (rows : list Row) :
  forall (ac ns : Z) (s : Session),
  database (tx (snd (alert_loop w settings today rows ac ns s)))
  = database (tx s).
Proof.
  induction rows as [|row rest IH]; intros ac ns s; [reflexivity|].
  rewrite alert_loop_cons.
  destruct (db_fault w (round_trips (tx s))); [reflexivity|].
  cbv zeta.
  destruct (expiry_lookup settings today (visible (db_now w) (tx s)) row)
    as [|a [|a' l']]; [rewrite IH | rewrite IH | ]; reflexivity.
Qed.
Lemma mark_step (now : Z) (x : Batch.t) (ids : list Z) (b : Batch.t) :
  (let b1 := if Batch.id b =? Batch.id x
             then Batch.set_updated_at now (Batch.set_is_expired true b)
             else b in
   let b2 := if Batch.id b1 =? Batch.id x
             then Batch.set_updated_at now (Batch.set_is_active false b1)
             else b1 in
   if existsb (Z.eqb (Batch.id b2)) ids then mark_expired now b2 else b2)
  = if existsb (Z.eqb (Batch.id b)) (Batch.id x :: ids) then mark_expired now b
    else b.
Proof.
  destruct b as [i bn p br iq cq ed ia ie ua]. cbn.
  destruct (i =? Batch.id x) eqn:E; cbn; rewrite ?E; cbn.
  - destruct (existsb (Z.eqb i) ids); reflexivity.
  - reflexivity.
Qed.

Lemma expired_loop_run (w : World) (l : list Batch.t) :
  forall (n : Z) (s : Session),
  expired_loop w l n s
  = (inr (n + Z.of_nat (List.length l)),
     mkSession
       (mkTx (database (tx s))
             (with_batches
                (mark_ids (db_now w) (map Batch.id l) (batches (txn (tx s))))
                (txn (tx s)))
             (new (tx s)) (round_trips (tx s)))
       (log s)).
Proof.
  induction l as [|x rest IH]; intros n s.
  - cbn. unfold ret, mark_ids, with_batches. rewrite map_id, Z.add_0_r.
    destruct s as [[d [bs ps brs al] nw k] lg]. reflexivity.
  - cbn [expired_loop]. cbv beta iota delta [bind setattr get_tx put_tx].
    rewrite IH. cbn [tx txn database new round_trips log batches with_batches
                        products branches alerts].
    f_equal.
    + f_equal. cbn [List.length]. lia.
    + f_equal. f_equal. unfold with_batches. cbn. f_equal.
      unfold mark_ids. rewrite !map_map. apply map_ext. intro b.
      apply (mark_step (db_now w) x (map Batch.id rest) b).
Qed.
(** ** The dates of the window *)

Lemma add_days_inr (d n d' : Z) :
  PyDate.add_days d n = inr d' -> d' = d + n.
Proof.
  unfold PyDate.add_days, PyDate.timedelta, PyDate.add.
  destruct ((n <? -2147483648) || (2147483647 <? n)); [discriminate|].
  destruct (999999999 <? Z.abs n); [discriminate|].
  destruct ((PyDate.MINORDINAL <=? d + n) && (d + n <=? PyDate.MAXORDINAL));
    [|discriminate].
  intro H. injection H as <-. reflexivity.
Qed.

Lemma window_some (settings : Settings) (today wd cd : Z) :
  window settings today = Some (wd, cd) ->
  wd = today + EXPIRY_WARNING_DAYS settings
  /\ cd = today + EXPIRY_CRITICAL_DAYS settings.
Proof.
  unfold window.
  destruct (PyDate.add_days today (EXPIRY_WARNING_DAYS settings)) as [m|x]
    eqn:E1; [discriminate|].
  destruct (PyDate.add_days today (EXPIRY_CRITICAL_DAYS settings)) as [m|y]
    eqn:E2; [discriminate|].
  intro H. injection H as <- <-.
  split; apply add_days_inr; assumption.
Qed.

Lemma window_ok_some (settings : Settings) (today : Z) :
  window_ok settings today = true ->
  window settings today
  = Some (today + EXPIRY_WARNING_DAYS settings,
          today + EXPIRY_CRITICAL_DAYS settings).
Proof.
  unfold window_ok.
  destruct (window settings today) as [[wd cd]|] eqn:E; [|discriminate].
  intros _. destruct (window_some settings today wd cd E) as [-> ->].
  reflexivity.
Qed.

Lemma candidates_window (settings : Settings) (today : Z) (st : Store) :
  window_ok settings today = true ->
  candidates settings today st
  = select_expiring today (today + EXPIRY_WARNING_DAYS settings) st.
Proof.
  intro H. unfold candidates. rewrite (window_ok_some settings today H).
  reflexivity.
Qed.

(** ** The expiry pass against its function of the store *)

Lemma expiry_pass_spec (w : World) (settings : Settings) (st : Store)
  (lg : list LogRecord) :
  match expiry_pass w settings (mkSession (mkTx st st [] 0) lg) with
  | (inr _, s') =>
      exists fresh msg,
        window_ok settings (date_today w) = true
        /\ fresh_rows settings (date_today w) (db_now w) (alerts st)
             (candidates settings (date_today w) st)
           = Some fresh
        /\ expiry_result settings (date_today w) (db_now w) st
           = Some (database (tx s'))
        /\ log s'
           = lg ++ flat_map (gateway_log w settings (date_today w)) fresh
                ++ [INFO msg]
  | (inl e, s') =>
      database (tx s') = st
      /\ match e with
         | MultipleResultsFound =>
             window_ok settings (date_today w) = true
             /\ expiry_result settings (date_today w) (db_now w) st = None
         | DBAPIError msg =>
             window_ok settings (date_today w) = true
             /\ exists n, db_fault w n = Some msg
         | OverflowError msg =>
             window_ok settings (date_today w) = false
             /\ s' = mkSession (mkTx st st [] 0) lg
         | _ => False
         end
  end.
Proof.
  unfold expiry_pass, expiry_result, candidates, window_ok, window.
  set (today := date_today w).
  unfold bind at 1. unfold date_plus_days at 1.
  destruct (PyDate.add_days today (EXPIRY_WARNING_DAYS settings)) as [m|wd].
  { cbn. auto. }
  cbv beta iota delta [ret].
  unfold bind at 1. unfold date_plus_days at 1.
  destruct (PyDate.add_days today (EXPIRY_CRITICAL_DAYS settings)) as [m|cd].
  { cbn. auto. }
  cbv beta iota delta [ret].
  unfold bind at 1. rewrite execute_run. cbn [tx round_trips log].
  destruct (db_fault w 0) as [m0|] eqn:F0.
  { cbv beta iota. split; [reflexivity|]. split; [reflexivity | eauto]. }
  set (s1 := mkSession (sent (flushed (db_now w) (mkTx st st [] 0))) lg).
  assert (Hrows : select_expiring today wd
                    (txn (flushed (db_now w) (mkTx st st [] 0)))
                  = select_expiring today wd st) by reflexivity.
  rewrite Hrows. set (rows := select_expiring today wd st).
  assert (Hvis : visible (db_now w) (tx s1) = alerts st).
  { unfold s1, sent, flushed, visible. cbn. rewrite !app_nil_r.
    reflexivity. }
  unfold bind at 1.
  pose proof (alert_loop_spec w settings today rows 0 0 s1) as L.
  pose proof (alert_loop_database w settings today rows 0 0 s1) as D.
  rewrite Hvis in L.
  destruct (alert_loop w settings today rows 0 0 s1) as [[e|[ac ns]] s2].
  { cbn in D. cbv beta iota. split; [exact D|].
    destruct e; try contradiction.
    - split; [reflexivity|]. rewrite L. reflexivity.
    - split; [reflexivity | exact L]. }
  destruct L as (fresh & Hfr & Hadd & Hlog & Hac & Hns).
  destruct Hadd as (Hd & Hb & Hp & Hbr & Hv).
  rewrite Hvis in Hv. cbn in Hd, Hb, Hp, Hbr, Hlog.
  rewrite Hfr.
  unfold bind at 1. rewrite execute_run.
  destruct (db_fault w (round_trips (tx s2))) as [m1|] eqn:F1.
  { cbv beta iota. split; [exact Hd|]. split; [reflexivity | eauto]. }
  unfold bind at 1. rewrite expired_loop_run.
  unfold bind at 1. rewrite commit_run.
  cbn [tx round_trips sent flushed].
  destruct (db_fault w (S (round_trips (tx s2)))) as [m2|] eqn:F2.
  { cbv beta iota. split; [exact Hd|]. split; [reflexivity | eauto]. }
  cbv zeta. cbn [logger_info tx log database txn].
  exists fresh. eexists. split; [reflexivity|]. split; [reflexivity|].
  split.
  - f_equal.
    unfold select_expired, expire_all, with_alerts, with_batches, visible,
      sent, flushed, visible.
    cbn [batches products branches alerts txn tx new map database].
    rewrite !app_nil_r. fold (visible (db_now w) (tx s2)).
    unfold with_alerts.
    cbn [batches products branches alerts txn tx new map database].
    rewrite Hv, Hp, Hbr, Hb. reflexivity.
  - rewrite Hlog, <- app_assoc. reflexivity.
Qed.

Lemma check_expiring_batches_run (w : World) (settings : Settings)
  (st : Store) :
  check_expiring_batches w settings (open_session st) =
  match expiry_attempt w settings st with
  | (inl e, s') =>
      (inr tt,
       mkSession
         (mkTx (database (tx s')) (database (tx s')) [] (round_trips (tx s')))
         (log s' ++ [ERROR ("Error in expiry check task: " +++ str_exn e)]))
  | (inr a, s') => (inr a, s')
  end.
Proof.
  unfold check_expiring_batches, expiry_attempt, open_session.
  unfold bind at 1. cbn [logger_info tx log app].
  unfold try_except.
  destruct (expiry_pass w settings _) as [[e|a] s']; reflexivity.
Qed.

Lemma run_expiry_outcome (w : World) (settings : Settings) (st : Store) :
  match raised (expiry_attempt w settings st) with
  | None =>
      expiry_result settings (date_today w) (db_now w) st
      = Some (run_expiry w settings st)
  | Some e =>
      run_expiry w settings st = st
      /\ match e with
         | MultipleResultsFound =>
             window_ok settings (date_today w) = true
             /\ expiry_result settings (date_today w) (db_now w) st = None
         | DBAPIError msg =>
             window_ok settings (date_today w) = true
             /\ exists n, db_fault w n = Some msg
         | OverflowError msg =>
             window_ok settings (date_today w) = false
         | _ => False
         end
  end.
Proof.
  unfold run_expiry, persisted, raised.
  rewrite check_expiring_batches_run.
  pose proof (expiry_pass_spec w settings st
                [INFO "Starting expiry check task..."]) as P.
  fold (expiry_attempt w settings st) in P.
  destruct (expiry_attempt w settings st) as [[e|a] s']; cbn [fst snd].
  - destruct P as [D P]. split; [exact D|].
    destruct e; try exact P. apply P.
  - destruct P as (fresh & msg & _ & _ & R & _). exact R.
Qed.

(** A window that does not exist gives no result. *)
Lemma expiry_result_no_window (settings : Settings) (today now : Z)
  (st : Store) :
  window_ok settings today = false ->
  expiry_result settings today now st = None.
Proof.
  unfold window_ok, expiry_result.
  destruct (window settings today) as [[wd cd]|]; [discriminate|reflexivity].
Qed.

Lemma run_expiry_calm (w : World) (settings : Settings) (st : Store) :
  calm w ->
  run_expiry w settings st
  = match expiry_result settings (date_today w) (db_now w) st with
    | Some st' => st'
    | None => st
    end
  /\ match expiry_result settings (date_today w) (db_now w) st with
     | Some _ => raised (expiry_attempt w settings st) = None
     | None =>
         if window_ok settings (date_today w)
         then raised (expiry_attempt w settings st)
              = Some MultipleResultsFound
         else exists msg,
                raised (expiry_attempt w settings st)
                = Some (OverflowError msg)
     end.
Proof.
  intro C. pose proof (run_expiry_outcome w settings st) as O.
  destruct (raised (expiry_attempt w settings st)) as [e|].
  - destruct O as [R O]. destruct e; try contradiction.
    + destruct O as [K O]. rewrite O, K. auto.
    + destruct O as [_ [n O]]. rewrite C in O. discriminate.
    + rewrite (expiry_result_no_window _ _ _ _ O), O. eauto.
  - rewrite O. auto.
Qed.

(** The whole of a pass is kept, or nothing of it. *)
Lemma run_expiry_all_or_nothing (w : World) (settings : Settings)
  (st : Store) :
  run_expiry w settings st = st
  \/ expiry_result settings (date_today w) (db_now w) st
     = Some (run_expiry w settings st).
Proof.
  pose proof (run_expiry_outcome w settings st) as O.
  destruct (raised (expiry_attempt w settings st)); [left; apply O | right; exact O].
Qed.

(** ** The low-stock pass against its function of the store *)

Lemma low_stock_loop_cons (w : World) (row : Row) (rest : list Row) (ac : Z)
  (s : Session) :
  low_stock_loop w (row :: rest) ac s =
  match db_fault w (round_trips (tx s)) with
  | Some msg => (inl (DBAPIError msg), mkSession (sent (tx s)) (log s))
  | None =>
      let t1 := sent (flushed (db_now w) (tx s)) in
      match low_stock_lookup (visible (db_now w) (tx s)) row with
      | [] =>
          low_stock_loop w rest (ac + 1)
            (mkSession
               (mkTx (database t1) (txn t1) [low_stock_alert row]
                     (round_trips t1))
               (log s))
      | [_] => low_stock_loop w rest ac (mkSession t1 (log s))
      | _ :: _ :: _ => (inl MultipleResultsFound, mkSession t1 (log s))
      end
  end.
Proof.
  destruct row as [[batch product] branch].
  cbn [low_stock_loop]. unfold low_stock_lookup, row_batch. cbn [fst snd].
  unfold bind at 1. rewrite execute_run.
  destruct (db_fault w (round_trips (tx s))); [reflexivity|].
  unfold select_pending_low_stock; cbn [txn flushed alerts with_alerts].
  match goal with
  | |- context [filter ?p ?l] => destruct (filter p l) as [|a [|a' l']]
  end; reflexivity.
Qed.

Lemma low_stock_loop_spec (w : World) (rows : list Row) :
  forall (ac : Z) (s : Session),
  match low_stock_loop w rows ac s with
  | (inr ac', s') =>
      exists fresh,
        fresh_low_stock (db_now w) (visible (db_now w) (tx s)) rows
        = Some fresh
        /\ only_added (db_now w) (tx s) (tx s')
             (map (fun row => insert_default (db_now w) (low_stock_alert row))
                  fresh)
        /\ log s' = log s
        /\ ac' = ac + Z.of_nat (List.length fresh)
  | (inl MultipleResultsFound, _) =>
      fresh_low_stock (db_now w) (visible (db_now w) (tx s)) rows = None
  | (inl (DBAPIError msg), _) => exists n, db_fault w n = Some msg
  | (inl _, _) => False
  end.
Proof.
  induction rows as [|row rest IH]; intros ac s.
  - cbn. exists []. cbn.
    split; [reflexivity|]. split; [apply only_added_refl|].
    split; [reflexivity | lia].
  - rewrite low_stock_loop_cons. cbn [fresh_low_stock].
    destruct (db_fault w (round_trips (tx s))) as [msg|] eqn:Hf.
    { eauto. }
    cbv zeta.
    destruct (low_stock_lookup (visible (db_now w) (tx s)) row)
      as [|a [|a' l']].
    + match goal with
      | |- context [low_stock_loop w rest ?ac1 ?s1] =>
          specialize (IH ac1 s1);
          destruct (low_stock_loop w rest ac1 s1) as [[e|ac'] s'];
          replace (visible (db_now w) (tx s1))
            with (visible (db_now w) (tx s)
                  ++ [insert_default (db_now w) (low_stock_alert row)]) in IH
            by (unfold visible; cbn; reflexivity)
      end.
      * destruct e; auto. rewrite IH. reflexivity.
      * destruct IH as (fresh & Hfr & Hadd & Hlog & Hac).
        exists (row :: fresh). rewrite Hfr. cbn [option_map].
        split; [reflexivity|].
        split.
        { destruct Hadd as (Hd & Hb & Hp & Hbr & Hv).
          unfold only_added. cbn in Hd, Hb, Hp, Hbr, Hv.
          rewrite Hd, Hb, Hp, Hbr, Hv. cbn [map].
          repeat split; auto.
          rewrite <- app_assoc. reflexivity. }
        split; [exact Hlog|].
        cbn [List.length]. lia.
    + match goal with
      | |- context [low_stock_loop w rest ?ac1 ?s1] =>
          specialize (IH ac1 s1);
          destruct (low_stock_loop w rest ac1 s1) as [[e|ac'] s'];
          replace (visible (db_now w) (tx s1))
            with (visible (db_now w) (tx s)) in IH
            by (unfold visible; cbn; rewrite app_nil_r; reflexivity)
      end.
      * exact IH.
      * destruct IH as (fresh & Hfr & Hadd & Hlog & Hac).
        exists fresh. split; [exact Hfr|].
        split.
        { destruct Hadd as (Hd & Hb & Hp & Hbr & Hv).
          unfold only_added. cbn in Hd, Hb, Hp, Hbr, Hv.
          rewrite Hd, Hb, Hp, Hbr, Hv.
          repeat split; auto.
          rewrite app_nil_r. reflexivity. }
        auto.
    + reflexivity.
Qed.

Lemma low_stock_loop_database (w : World) (rows : list Row) :
  forall (ac : Z) (s : Session),
  database (tx (snd (low_stock_loop w rows ac s))) = database (tx s).
Proof.
  induction rows as [|row rest IH]; intros ac s; [reflexivity|].
  rewrite low_stock_loop_cons.
  destruct (db_fault w (round_trips (tx s))); [reflexivity|].
  cbv zeta.
  destruct (low_stock_lookup (visible (db_now w) (tx s)) row)
    as [|a [|a' l']]; [rewrite IH | rewrite IH | ]; reflexivity.
Qed.

Lemma low_stock_pass_spec (w : World) (st : Store) (lg : list LogRecord) :
  match low_stock_pass w (mkSession (mkTx st st [] 0) lg) with
  | (inr _, s') =>
      low_stock_result (db_now w) st = Some (database (tx s'))
      /\ exists msg, log s' = lg ++ [INFO msg]
  | (inl e, s') =>
      database (tx s') = st
      /\ match e with
         | MultipleResultsFound => low_stock_result (db_now w) st = None
         | DBAPIError msg => exists n, db_fault w n = Some msg
         | _ => False
         end
  end.
Proof.
  unfold low_stock_pass, low_stock_result.
  unfold bind at 1. rewrite execute_run. cbn [tx round_trips log].
  destruct (db_fault w 0) as [m0|] eqn:F0.
  { cbv beta iota. split; [reflexivity | eauto]. }
  set (s1 := mkSession (sent (flushed (db_now w) (mkTx st st [] 0))) lg).
  assert (Hrows : select_low_stock
                    (txn (flushed (db_now w) (mkTx st st [] 0)))
                  = select_low_stock st) by reflexivity.
  rewrite Hrows. set (rows := select_low_stock st).
  assert (Hvis : visible (db_now w) (tx s1) = alerts st).
  { unfold s1, sent, flushed, visible. cbn. rewrite !app_nil_r.
    reflexivity. }
  unfold bind at 1.
  pose proof (low_stock_loop_spec w rows 0 s1) as L.
  pose proof (low_stock_loop_database w rows 0 s1) as D.
  rewrite Hvis in L.
  destruct (low_stock_loop w rows 0 s1) as [[e|ac] s2].
  { cbn in D. cbv beta iota. split; [exact D|].
    destruct e; auto. rewrite L. reflexivity. }
  destruct L as (fresh & Hfr & Hadd & Hlog & Hac).
  destruct Hadd as (Hd & Hb & Hp & Hbr & Hv).
  rewrite Hvis in Hv. cbn in Hd, Hb, Hp, Hbr, Hlog.
  rewrite Hfr.
  unfold bind at 1. rewrite commit_run.
  destruct (db_fault w (round_trips (tx s2))) as [m2|] eqn:F2.
  { cbv beta iota. split; [exact Hd | eauto]. }
  cbv zeta. cbn [logger_info tx log database txn].
  split.
  - f_equal.
    unfold with_alerts, sent, flushed, with_alerts.
    cbn [batches products branches alerts txn tx new map database].
    rewrite Hv, Hp, Hbr, Hb. reflexivity.
  - rewrite Hlog. eauto.
Qed.

Lemma check_low_stock_run (w : World) (st : Store) :
  check_low_stock w (open_session st) =
  match low_stock_attempt w st with
  | (inl e, s') =>
      (inr tt,
       mkSession
         (mkTx (database (tx s')) (database (tx s')) [] (round_trips (tx s')))
         (log s' ++ [ERROR ("Error in low stock check: " +++ str_exn e)]))
  | (inr a, s') => (inr a, s')
  end.
Proof.
  unfold check_low_stock, low_stock_attempt, open_session.
  unfold bind at 1. cbn [logger_info tx log app].
  unfold try_except.
  destruct (low_stock_pass w _) as [[e|a] s']; reflexivity.
Qed.

Lemma run_low_stock_outcome (w : World) (st : Store) :
  match raised (low_stock_attempt w st) with
  | None => low_stock_result (db_now w) st = Some (run_low_stock w st)
  | Some e =>
      run_low_stock w st = st
      /\ match e with
         | MultipleResultsFound => low_stock_result (db_now w) st = None
         | DBAPIError msg => exists n, db_fault w n = Some msg
         | _ => False
         end
  end.
Proof.
  unfold run_low_stock, persisted, raised.
  rewrite check_low_stock_run.
  pose proof (low_stock_pass_spec w st [INFO "Starting low stock check..."])
    as P.
  fold (low_stock_attempt w st) in P.
  destruct (low_stock_attempt w st) as [[e|a] s']; cbn [fst snd].
  - destruct P as [D P]. split; [exact D | exact P].
  - destruct P as [R _]. exact R.
Qed.

Lemma run_low_stock_calm (w : World) (st : Store) :
  calm w ->
  run_low_stock w st
  = match low_stock_result (db_now w) st with
    | Some st' => st'
    | None => st
    end
  /\ raised (low_stock_attempt w st)
     = match low_stock_result (db_now w) st with
       | Some _ => None
       | None => Some MultipleResultsFound
       end.
Proof.
  intro C. pose proof (run_low_stock_outcome w st) as O.
  destruct (raised (low_stock_attempt w st)) as [e|].
  - destruct O as [R O]. destruct e; try contradiction.
    + rewrite O. auto.
    + destruct O as [n O]. rewrite C in O. discriminate.
  - rewrite O. auto.
Qed.

(** ** Joins, keys and references *)

Lemma join_fst {A B : Type} (l : list A) (r : list B) (on : A -> B -> bool) :
  (forall a, In a l -> exists b, filter (on a) r = [b]) ->
  map fst (join l r on) = l.
Proof.
  induction l as [|a l IH]; intro H; [reflexivity|].
  unfold join in *. cbn [flat_map]. rewrite map_app.
  destruct (H a (or_introl eq_refl)) as [b Hb]. rewrite Hb. cbn.
  f_equal. apply IH. intros a' Ha'. apply H. right. exact Ha'.
Qed.

Lemma join_In_fst {A B : Type} (l : list A) (r : list B)
  (on : A -> B -> bool) (x : A * B) :
  In x (join l r on) -> In (fst x) l.
Proof.
  unfold join. rewrite in_flat_map. intros (a & Ha & Hx).
  apply in_map_iff in Hx. destruct Hx as (b & <- & _). exact Ha.
Qed.

Lemma refers_once_filter {A : Type} (key : A -> Z) (table : list A) (k : Z) :
  refers_once key table k = true ->
  exists r, filter (fun r => k =? key r) table = [r].
Proof.
  unfold refers_once.
  destruct (filter (fun r => k =? key r) table) as [|r [|r' l]];
    try discriminate.
  eauto.
Qed.

Lemma row_in_batches (st : Store) (row : Row) :
  In row (batch_product_branch st) -> In (row_batch row) (batches st).
Proof.
  unfold batch_product_branch, row_batch. intro H.
  apply join_In_fst in H. apply join_In_fst in H. exact H.
Qed.

Lemma rows_batches (st : Store) :
  wf_store st = true -> map row_batch (batch_product_branch st) = batches st.
Proof.
  unfold wf_store. rewrite !andb_true_iff. intros [[_ Hp] Hb].
  rewrite forallb_forall in Hp, Hb.
  unfold batch_product_branch.
  assert (H1 : map fst (join (batches st) (products st)
                          (fun b p => Batch.product_id b =? Product.id p))
               = batches st).
  { apply join_fst. intros b Hin.
    apply (refers_once_filter Product.id). apply Hp.
    apply in_map. exact Hin. }
  rewrite <- H1 at 2.
  rewrite <- (join_fst _ (branches st)
                (fun bp br => Batch.branch_id (fst bp) =? Branch.id br)) at 2.
  - rewrite map_map. reflexivity.
  - intros bp Hin. apply (refers_once_filter Branch.id). apply Hb.
    apply in_map. apply join_In_fst in Hin. exact Hin.
Qed.

Lemma map_filter_comm {A B : Type} (f : A -> B) (p : B -> bool) (l : list A) :
  map f (filter (fun x => p (f x)) l) = filter p (map f l).
Proof.
  induction l as [|a l IH]; [reflexivity|].
  cbn. destruct (p (f a)); cbn; rewrite IH; reflexivity.
Qed.

Lemma select_expiring_filter (today wd : Z) (st : Store) :
  select_expiring today wd st
  = filter (fun row => expiring_soon today wd (row_batch row))
           (batch_product_branch st).
Proof.
  unfold select_expiring. apply filter_ext. intros [[b p] br]. reflexivity.
Qed.

Lemma select_low_stock_filter (st : Store) :
  select_low_stock st
  = filter (fun row => low_stock (row_batch row)) (batch_product_branch st).
Proof.
  unfold select_low_stock. apply filter_ext. intros [[b p] br]. reflexivity.
Qed.

(** The candidates are the batches of the [where] clause, once each. *)
Lemma candidates_batches (settings : Settings) (today : Z) (st : Store) :
  wf_store st = true ->
  window_ok settings today = true ->
  map row_batch (candidates settings today st)
  = filter (expiring_soon today (today + EXPIRY_WARNING_DAYS settings))
           (batches st).
Proof.
  intros W K. rewrite candidates_window by exact K.
  rewrite select_expiring_filter.
  rewrite map_filter_comm, rows_batches by exact W. reflexivity.
Qed.

(** A pass with a candidate has its window. *)
Lemma candidate_window_ok (settings : Settings) (today : Z) (st : Store)
  (row : Row) :
  In row (candidates settings today st) -> window_ok settings today = true.
Proof.
  unfold candidates, window_ok.
  destruct (window settings today) as [[wd cd]|]; [reflexivity|].
  intros [].
Qed.

Lemma low_stock_batches (st : Store) :
  wf_store st = true ->
  map row_batch (select_low_stock st) = filter low_stock (batches st).
Proof.
  intro W. rewrite select_low_stock_filter.
  rewrite map_filter_comm, rows_batches by exact W. reflexivity.
Qed.

Lemma candidate_in (settings : Settings) (today : Z) (st : Store) (row : Row) :
  In row (candidates settings today st) ->
  In (row_batch row) (batches st)
  /\ expiring_soon today (today + EXPIRY_WARNING_DAYS settings)
       (row_batch row)
     = true.
Proof.
  intro Hin. pose proof (candidate_window_ok _ _ _ _ Hin) as K.
  rewrite candidates_window in Hin by exact K.
  rewrite select_expiring_filter, filter_In in Hin.
  destruct Hin as [H E]. split; [apply row_in_batches; exact H | exact E].
Qed.

Lemma distinct_NoDup (l : list Z) : distinct l = true -> NoDup l.
Proof.
  induction l as [|x l IH]; cbn; intro H; constructor.
  - apply andb_true_iff in H. destruct H as [H _].
    intro Hin. apply negb_true_iff in H.
    assert (existsb (Z.eqb x) l = true).
    { apply existsb_exists. exists x. split; [exact Hin | apply Z.eqb_refl]. }
    congruence.
  - apply IH. apply andb_true_iff in H. apply H.
Qed.

Lemma NoDup_map_filter {A : Type} (f : A -> Z) (p : A -> bool) (l : list A) :
  NoDup (map f l) -> NoDup (map f (filter p l)).
Proof.
  induction l as [|a l IH]; cbn; intro H; [constructor|].
  inversion H as [|x xs Hn Hd]; subst.
  destruct (p a); cbn; [constructor|]; auto.
  intro Hin. apply Hn. apply in_map_iff in Hin.
  destruct Hin as (y & Hy & Hin). apply filter_In in Hin.
  apply in_map_iff. exists y. tauto.
Qed.

Lemma NoDup_map_inj {A : Type} (f : A -> Z) (l : list A) (x y : A) :
  NoDup (map f l) -> In x l -> In y l -> f x = f y -> x = y.
Proof.
  induction l as [|a l IH]; cbn; intros H Hx Hy E; [contradiction|].
  inversion H as [|z zs Hn Hd]; subst.
  destruct Hx as [<-|Hx], Hy as [<-|Hy]; auto.
  - exfalso. apply Hn. rewrite E. apply in_map. exact Hy.
  - exfalso. apply Hn. rewrite <- E. apply in_map. exact Hx.
Qed.


Lemma candidates_NoDup (settings : Settings) (today : Z) (st : Store) :
  wf_store st = true -> NoDup (map row_key (candidates settings today st)).
Proof.
  intro W. destruct (window_ok settings today) eqn:K.
  - unfold row_key.
    rewrite <- (map_map row_batch Batch.id), candidates_batches by assumption.
    apply NoDup_map_filter. apply distinct_NoDup.
    unfold wf_store in W. rewrite !andb_true_iff in W. apply W.
  - unfold candidates. unfold window_ok in K.
    destruct (window settings today); [discriminate | constructor].
Qed.

Lemma low_stock_NoDup (st : Store) :
  wf_store st = true -> NoDup (map row_key (select_low_stock st)).
Proof.
  intro W. unfold row_key.
  rewrite <- (map_map row_batch Batch.id), low_stock_batches by exact W.
  apply NoDup_map_filter. apply distinct_NoDup.
  unfold wf_store in W. rewrite !andb_true_iff in W. apply W.
Qed.

(** ** Which candidates get an alert *)

Lemma stamped_alert_batch_id (settings : Settings) (today now : Z)
  (row : Row) :
  Alert.batch_id (stamped_alert settings today now row) = row_key row.
Proof.
  destruct row as [[b p] br].
  unfold stamped_alert, insert_default, expiry_alert, alert_fields.
  destruct (is_critical settings today b); reflexivity.
Qed.

Lemma stamped_alert_type (settings : Settings) (today now : Z) (row : Row) :
  Alert.alert_type (stamped_alert settings today now row)
  = alert_type_of settings today (row_batch row).
Proof.
  destruct row as [[b p] br].
  unfold stamped_alert, insert_default, expiry_alert, alert_fields,
    alert_type_of, row_batch.
  cbn [fst]. destruct (is_critical settings today b); reflexivity.
Qed.

Lemma stamped_alert_created_at (settings : Settings) (today now : Z)
  (row : Row) :
  Alert.created_at (stamped_alert settings today now row) = Some now.
Proof.
  destruct row as [[b p] br].
  unfold stamped_alert, insert_default, expiry_alert, alert_fields.
  destruct (is_critical settings today b); reflexivity.
Qed.

Lemma expiry_lookup_app (settings : Settings) (today : Z)
  (vis extra : list Alert.t) (row : Row) :
  expiry_lookup settings today (vis ++ extra) row
  = expiry_lookup settings today vis row
    ++ expiry_lookup settings today extra row.
Proof. unfold expiry_lookup. apply filter_app. Qed.

Lemma expiry_lookup_other (settings : Settings) (today : Z)
  (vis : list Alert.t) (a : Alert.t) (row : Row) :
  Alert.batch_id a <> row_key row ->
  expiry_lookup settings today (vis ++ [a]) row
  = expiry_lookup settings today vis row.
Proof.
  intro N. rewrite expiry_lookup_app.
  unfold expiry_lookup at 2. cbn [filter]. unfold alert_since.
  fold (row_key row).
  destruct (Z.eqb_spec (Alert.batch_id a) (row_key row)); [contradiction|].
  cbn. apply app_nil_r.
Qed.

Lemma forallb_agree {A : Type} (f g : A -> bool) (l : list A) :
  (forall x, In x l -> f x = g x) -> forallb f l = forallb g l.
Proof.
  induction l as [|a l IH]; intro H; [reflexivity|].
  cbn. rewrite (H a (or_introl eq_refl)), IH; [reflexivity|].
  intros x Hx. apply H. right. exact Hx.
Qed.

Lemma fresh_rows_distinct (settings : Settings) (today now : Z)
  (rows : list Row) :
  forall vis,
  NoDup (map row_key rows) ->
  forallb (fun row => at_most_one (expiry_lookup settings today vis row)) rows
  = true ->
  fresh_rows settings today now vis rows
  = Some (filter (no_alert_yet settings today vis) rows).
Proof.
  induction rows as [|row rest IH]; intros vis ND H; [reflexivity|].
  cbn [fresh_rows filter forallb map] in *.
  inversion ND as [|k ks Hn Hd]; subst.
  apply andb_true_iff in H. destruct H as [H1 H2].
  assert (Hother : forall r, In r rest ->
            expiry_lookup settings today
              (vis ++ [stamped_alert settings today now row]) r
            = expiry_lookup settings today vis r).
  { intros r Hr. apply expiry_lookup_other.
    rewrite stamped_alert_batch_id. intro E. apply Hn. rewrite E.
    apply in_map. exact Hr. }
  unfold no_alert_yet at 1.
  destruct (expiry_lookup settings today vis row) as [|a [|a' l]].
  - rewrite IH.
    + cbn [option_map]. f_equal. f_equal. apply filter_ext_in.
      intros r Hr. unfold no_alert_yet. rewrite Hother by exact Hr.
      reflexivity.
    + exact Hd.
    + rewrite <- H2. apply forallb_agree.
      intros r Hr. rewrite Hother by exact Hr. reflexivity.
  - apply IH; assumption.
  - discriminate.
Qed.

(** A lookup that finds two rows or more aborts the pass, wherever the
    candidate stands in the scan. *)
Lemma fresh_rows_ambiguous (settings : Settings) (today now : Z)
  (rows : list Row) :
  forall vis,
  (exists row, In row rows
     /\ at_most_one (expiry_lookup settings today vis row) = false) ->
  fresh_rows settings today now vis rows = None.
Proof.
  induction rows as [|row rest IH]; intros vis (bad & Hin & Hbad).
  { contradiction. }
  cbn [fresh_rows].
  destruct (expiry_lookup settings today vis row) as [|a [|a' l]] eqn:E.
  - destruct Hin as [<-|Hin]; [rewrite E in Hbad; discriminate|].
    rewrite IH; [reflexivity|].
    exists bad. split; [exact Hin|].
    rewrite expiry_lookup_app.
    destruct (expiry_lookup settings today vis bad) as [|x [|y t]];
      try discriminate.
    reflexivity.
  - destruct Hin as [<-|Hin]; [rewrite E in Hbad; discriminate|].
    apply IH. eauto.
  - reflexivity.
Qed.

Lemma fresh_rows_all_known (settings : Settings) (today now : Z)
  (rows : list Row) (vis : list Alert.t) :
  (forall row, In row rows ->
     exists a, expiry_lookup settings today vis row = [a]) ->
  fresh_rows settings today now vis rows = Some [].
Proof.
  induction rows as [|row rest IH]; intro H; [reflexivity|].
  cbn [fresh_rows].
  destruct (H row (or_introl eq_refl)) as [a ->].
  apply IH. intros r Hr. apply H. right. exact Hr.
Qed.

(** ** The expired transition on a keyed table *)

Lemma mark_ids_proj {B : Type} (f : Batch.t -> B) (now : Z) (ids : list Z)
  (bs : list Batch.t) :
  (forall b, f (mark_expired now b) = f b) ->
  map f (mark_ids now ids bs) = map f bs.
Proof.
  intro H. unfold mark_ids. rewrite map_map. apply map_ext.
  intro b. destruct (existsb _ ids); [apply H | reflexivity].
Qed.

Lemma expire_all_keyed (today now : Z) (bs : list Batch.t) :
  NoDup (map Batch.id bs) ->
  expire_all today now bs = map (expire today now) bs.
Proof.
  intro ND. unfold expire_all, mark_ids, expire. apply map_ext_in.
  intros b Hb.
  destruct (expired_due today b) eqn:E.
  - replace (existsb (Z.eqb (Batch.id b))
               (map Batch.id (filter (expired_due today) bs))) with true;
      [reflexivity|].
    symmetry. apply existsb_exists. exists (Batch.id b).
    split; [|apply Z.eqb_refl].
    apply in_map. apply filter_In. auto.
  - destruct (existsb (Z.eqb (Batch.id b))
                (map Batch.id (filter (expired_due today) bs))) eqn:X;
      [|reflexivity].
    apply existsb_exists in X. destruct X as (k & Hk & Ek).
    apply Z.eqb_eq in Ek. apply in_map_iff in Hk.
    destruct Hk as (b' & Hb' & Hin). apply filter_In in Hin.
    destruct Hin as [Hin E'].
    assert (b' = b).
    { apply (NoDup_map_inj Batch.id bs); auto. congruence. }
    subst b'. congruence.
Qed.

Lemma expire_not_due (today today' now : Z) (b : Batch.t) :
  expired_due today' (expire today now b) = true ->
  expired_due today b = false /\ expire today now b = b.
Proof.
  unfold expire. destruct (expired_due today b) eqn:E; [|auto].
  unfold expired_due, mark_expired. cbn. discriminate.
Qed.

Lemma expire_all_again (today today' now : Z) (bs : list Batch.t) :
  today <= today' ->
  filter (expired_due today) (expire_all today' now bs) = [].
Proof.
  intro Hle. unfold expire_all, mark_ids.
  set (ids := map Batch.id (filter (expired_due today') bs)).
  assert (H : forall b, In b bs ->
            expired_due today
              (if existsb (Z.eqb (Batch.id b)) ids then mark_expired now b
               else b)
            = false).
  { intros b Hb.
    destruct (existsb (Z.eqb (Batch.id b)) ids) eqn:X.
    - unfold expired_due, mark_expired. reflexivity.
    - destruct (expired_due today b) eqn:E; [|reflexivity].
      exfalso.
      assert (expired_due today' b = true).
      { unfold expired_due in *. rewrite !andb_true_iff in *.
        destruct E as [[A D] F]. repeat split; auto.
        apply Z.leb_le in D. apply Z.leb_le. lia. }
      assert (existsb (Z.eqb (Batch.id b)) ids = true).
      { apply existsb_exists. exists (Batch.id b).
        split; [|apply Z.eqb_refl].
        apply in_map. apply filter_In. auto. }
      congruence. }
  clearbody ids.
  induction bs as [|b bs IH]; [reflexivity|].
  cbn [map filter]. rewrite (H b (or_introl eq_refl)).
  apply IH. intros b' Hb'. apply H. right. exact Hb'.
Qed.

Lemma mark_ids_nil (now : Z) (bs : list Batch.t) : mark_ids now [] bs = bs.
Proof. unfold mark_ids. cbn. apply map_id. Qed.

Lemma expired_or_expiring (settings : Settings) (today : Z) (b : Batch.t) :
  expired_due today b = true ->
  expiring_soon today (today + EXPIRY_WARNING_DAYS settings) b = false.
Proof.
  unfold expired_due, expiring_soon. rewrite !andb_true_iff.
  intros [[_ D] _]. apply Z.leb_le in D.
  destruct (today <? Batch.expiry_date b) eqn:E.
  - apply Z.ltb_lt in E. lia.
  - rewrite andb_false_r. reflexivity.
Qed.

(** ** A pass that commits *)

Lemma wf_store_keys (st : Store) :
  wf_store st = true -> NoDup (map Batch.id (batches st)).
Proof.
  unfold wf_store. rewrite !andb_true_iff. intros [[D _] _].
  apply distinct_NoDup. exact D.
Qed.

Lemma expiry_result_ok (settings : Settings) (today now : Z) (st : Store) :
  wf_store st = true ->
  dedup_ok settings today st = true ->
  window_ok settings today = true ->
  expiry_result settings today now st
  = Some (mkStore (map (expire today now) (batches st)) (products st)
                  (branches st)
                  (alerts st
                   ++ map (stamped_alert settings today now)
                        (filter (no_alert_yet settings today (alerts st))
                                (candidates settings today st)))).
Proof.
  intros W D K.
  pose proof (fresh_rows_distinct settings today now
                (candidates settings today st) (alerts st)
                (candidates_NoDup settings today st W) D) as F.
  rewrite candidates_window in F by exact K.
  unfold expiry_result. rewrite (window_ok_some settings today K).
  rewrite F, <- candidates_window by exact K.
  rewrite expire_all_keyed by (apply wf_store_keys; exact W).
  reflexivity.
Qed.

Lemma run_expiry_ok (w : World) (settings : Settings) (st : Store) :
  calm w ->
  wf_store st = true ->
  dedup_ok settings (date_today w) st = true ->
  window_ok settings (date_today w) = true ->
  raised (expiry_attempt w settings st) = None
  /\ run_expiry w settings st
     = mkStore (map (expire (date_today w) (db_now w)) (batches st))
               (products st)
               (branches st)
               (alerts st
                ++ map (stamped_alert settings (date_today w) (db_now w))
                     (filter (no_alert_yet settings (date_today w) (alerts st))
                             (candidates settings (date_today w) st))).
Proof.
  intros C W D K.
  destruct (run_expiry_calm w settings st C) as [R E].
  rewrite (expiry_result_ok settings (date_today w) (db_now w) st W D K)
    in R, E.
  auto.
Qed.

Lemma wf_store_expired (today now : Z) (st : Store) (al : list Alert.t) :
  wf_store st = true ->
  wf_store (mkStore (map (expire today now) (batches st)) (products st)
                    (branches st) al) = true.
Proof.
  unfold wf_store. cbn [batches products branches].
  rewrite !map_map.
  assert (E : forall {B : Type} (f : Batch.t -> B),
            (forall b, f (mark_expired now b) = f b) ->
            map (fun b => f (expire today now b)) (batches st)
            = map f (batches st)).
  { intros B f H. apply map_ext. intro b. unfold expire.
    destruct (expired_due today b); [apply H | reflexivity]. }
  rewrite !E by reflexivity. auto.
Qed.

(** ** The notification service does not reach the store *)

Lemma agree_bind {A B : Type} (RA : A -> A -> Prop) (RB : B -> B -> Prop)
  (m m' : M A) (k k' : A -> M B) (s s' : Session) :
  agree RA (m s) (m' s') ->
  (forall a a' t t', RA a a' -> tx t = tx t' -> agree RB (k a t) (k' a' t')) ->
  agree RB (bind m k s) (bind m' k' s').
Proof.
  unfold agree, bind. intros [T R] K.
  destruct (m s) as [[e|a] t], (m' s') as [[e'|a'] t']; cbn in *;
    try contradiction.
  - auto.
  - apply K; assumption.
Qed.

Lemma execute_agree {R : Type} (w w' : World) (q : Store -> list R)
  (s s' : Session) :
  same_data w w' -> tx s = tx s' ->
  agree eq (execute w q s) (execute w' q s').
Proof.
  intros (_ & Hn & Hf) T. rewrite !execute_run, <- T, Hf, Hn.
  unfold agree. destruct (db_fault w (round_trips (tx s))); cbn; auto.
Qed.

Lemma commit_agree (w w' : World) (s s' : Session) :
  same_data w w' -> tx s = tx s' -> agree eq (commit w s) (commit w' s').
Proof.
  intros (_ & Hn & Hf) T. rewrite !commit_run, <- T, Hf, Hn.
  unfold agree. destruct (db_fault w (round_trips (tx s))); cbn; auto.
Qed.

Lemma date_plus_days_agree (d n : Z) (s s' : Session) :
  tx s = tx s' ->
  agree eq (date_plus_days d n s) (date_plus_days d n s').
Proof.
  intro T. unfold agree, date_plus_days.
  destruct (PyDate.add_days d n); cbn; auto.
Qed.

Lemma alert_loop_agree (w w' : World) (settings : Settings) (today : Z)
  (rows : list Row) :
  same_data w w' ->
  forall ac ns ns' s s',
  tx s = tx s' ->
  agree (fun _ _ => True)
        (alert_loop w settings today rows ac ns s)
        (alert_loop w' settings today rows ac ns' s').
Proof.
  intros (Hd & Hn & Hf).
  induction rows as [|row rest IH]; intros ac ns ns' s s' T.
  - unfold agree. cbn. auto.
  - rewrite !alert_loop_cons, <- T, Hf, Hn.
    destruct (db_fault w (round_trips (tx s))).
    { unfold agree. cbn. auto. }
    cbv zeta.
    destruct (expiry_lookup settings today (visible (db_now w) (tx s)) row)
      as [|a [|a' l]].
    + apply IH. reflexivity.
    + apply IH. reflexivity.
    + unfold agree. cbn. auto.
Qed.

Lemma expiry_pass_agree (w w' : World) (settings : Settings)
  (s s' : Session) :
  same_data w w' -> tx s = tx s' ->
  agree (fun _ _ => True) (expiry_pass w settings s)
        (expiry_pass w' settings s').
Proof.
  intros S T. unfold expiry_pass.
  destruct S as (Hd & Hn & Hf). rewrite Hd.
  assert (S : same_data w w') by (repeat split; auto).
  eapply agree_bind; [apply date_plus_days_agree; eassumption|].
  intros warning_date ? t01 t01' <- T01.
  eapply agree_bind; [apply date_plus_days_agree; eassumption|].
  intros critical_date ? t02 t02' <- T02.
  eapply agree_bind; [apply execute_agree; eassumption|].
  intros rows ? t t' <- T1.
  eapply agree_bind; [apply alert_loop_agree; eassumption|].
  intros counts counts' t2 t2' _ T2.
  eapply agree_bind; [apply execute_agree; eassumption|].
  intros due ? t3 t3' <- T3.
  eapply (agree_bind eq).
  { rewrite !expired_loop_run. rewrite T3, Hn.
    unfold agree. cbn. auto. }
  intros n ? t4 t4' <- T4.
  eapply agree_bind; [apply commit_agree; eassumption|].
  intros ? ? t5 t5' _ T5.
  unfold agree, logger_info. cbn. auto.
Qed.

Lemma run_expiry_database (w : World) (settings : Settings) (st : Store) :
  run_expiry w settings st
  = database (tx (snd (expiry_attempt w settings st))).
Proof.
  unfold run_expiry, persisted. rewrite check_expiring_batches_run.
  destruct (expiry_attempt w settings st) as [[e|a] s']; reflexivity.
Qed.

Lemma run_expiry_same_data (w w' : World) (settings : Settings)
  (st : Store) :
  same_data w w' ->
  run_expiry w' settings st = run_expiry w settings st
  /\ raised (expiry_attempt w' settings st)
     = raised (expiry_attempt w settings st).
Proof.
  intro S. rewrite !run_expiry_database.
  destruct (expiry_pass_agree w w' settings
              (mkSession (mkTx st st [] 0)
                         [INFO "Starting expiry check task..."])
              (mkSession (mkTx st st [] 0)
                         [INFO "Starting expiry check task..."])
              S eq_refl) as [T R].
  fold (expiry_attempt w settings st) in T, R.
  fold (expiry_attempt w' settings st) in T, R.
  rewrite T. split; [reflexivity|].
  unfold raised.
  destruct (fst (expiry_attempt w settings st)),
    (fst (expiry_attempt w' settings st)); try contradiction; congruence.
Qed.

(** The log of a pass that commits. *)
Lemma check_expiring_batches_log (w : World) (settings : Settings)
  (st : Store) :
  calm w ->
  wf_store st = true ->
  dedup_ok settings (date_today w) st = true ->
  window_ok settings (date_today w) = true ->
  exists msg,
    log (snd (check_expiring_batches w settings (open_session st)))
    = [INFO "Starting expiry check task..."]
      ++ flat_map (gateway_log w settings (date_today w))
           (filter (no_alert_yet settings (date_today w) (alerts st))
                   (candidates settings (date_today w) st))
      ++ [INFO msg].
Proof.
  intros C W D K.
  destruct (run_expiry_ok w settings st C W D K) as [R _].
  rewrite check_expiring_batches_run.
  pose proof (expiry_pass_spec w settings st
                [INFO "Starting expiry check task..."]) as P.
  fold (expiry_attempt w settings st) in P.
  unfold raised in R.
  destruct (expiry_attempt w settings st) as [[e|a] s']; cbn in R;
    [discriminate|].
  destruct P as (fresh & msg & _ & Hfr & _ & Hlog).
  rewrite (fresh_rows_distinct settings (date_today w) (db_now w)
             (candidates settings (date_today w) st) (alerts st)
             (candidates_NoDup settings (date_today w) st W) D) in Hfr.
  injection Hfr as <-. exists msg. exact Hlog.
Qed.

(** ** Counting the alerts of a candidate *)

Section COUNT.

Variable mk : Row -> Alert.t.
Variable ty : Row -> string.
Hypothesis mk_batch_id : forall row, Alert.batch_id (mk row) = row_key row.
Hypothesis mk_type : forall row, Alert.alert_type (mk row) = ty row.

Lemma alerts_for_absent (k : Z) (t : string) (rows : list Row) :
  (forall r, In r rows -> row_key r <> k) ->
  alerts_for k t (map mk rows) = [].
Proof.
  induction rows as [|r rows IH]; intro H; [reflexivity|].
  unfold alerts_for in *. cbn [map filter].
  rewrite mk_batch_id.
  destruct (Z.eqb_spec (row_key r) k) as [E|_].
  - exfalso. apply (H r); [left; reflexivity | exact E].
  - cbn [andb]. apply IH. intros r' Hr'. apply H. right. exact Hr'.
Qed.

Lemma alerts_for_present (rows : list Row) (row : Row) :
  NoDup (map row_key rows) ->
  In row rows ->
  List.length (alerts_for (row_key row) (ty row) (map mk rows)) = 1%nat.
Proof.
  induction rows as [|r rows IH]; intros ND Hin; [contradiction|].
  inversion ND as [|k ks Hn Hd]; subst.
  unfold alerts_for in *. cbn [map filter]. rewrite mk_batch_id, mk_type.
  destruct Hin as [->|Hin].
  - rewrite Z.eqb_refl, String.eqb_refl. cbn [andb List.length].
    f_equal.
    change (List.length (alerts_for (row_key row) (ty row) (map mk rows))
            = 0%nat).
    rewrite alerts_for_absent; [reflexivity|].
    intros r' Hr' E. apply Hn. rewrite <- E. apply in_map. exact Hr'.
  - destruct (Z.eqb_spec (row_key r) (row_key row)) as [E|_].
    + exfalso. apply Hn. rewrite E. apply in_map. exact Hin.
    + cbn [andb]. apply IH; assumption.
Qed.

Lemma alerts_for_filtered (f : Row -> bool) (rows : list Row) (row : Row) :
  NoDup (map row_key rows) ->
  In row rows ->
  List.length (alerts_for (row_key row) (ty row) (map mk (filter f rows)))
  = if f row then 1%nat else 0%nat.
Proof.
  intros ND Hin. destruct (f row) eqn:F.
  - apply alerts_for_present.
    + apply NoDup_map_filter. exact ND.
    + apply filter_In. auto.
  - rewrite alerts_for_absent; [reflexivity|].
    intros r Hr E. apply filter_In in Hr. destruct Hr as [Hr Fr].
    assert (r = row) by (apply (NoDup_map_inj row_key rows); auto).
    subst r. congruence.
Qed.

End COUNT.

(** ** Which low-stock candidates get an alert *)

Lemma low_stock_alert_batch_id (now : Z) (row : Row) :
  Alert.batch_id (insert_default now (low_stock_alert row)) = row_key row.
Proof. destruct row as [[b p] br]. reflexivity. Qed.

Lemma low_stock_lookup_other (vis : list Alert.t) (a : Alert.t) (row : Row) :
  Alert.batch_id a <> row_key row ->
  low_stock_lookup (vis ++ [a]) row = low_stock_lookup vis row.
Proof.
  intro N. unfold low_stock_lookup. rewrite filter_app. cbn [filter].
  unfold pending_low_stock at 2. fold (row_key row).
  destruct (Z.eqb_spec (Alert.batch_id a) (row_key row)); [contradiction|].
  cbn. apply app_nil_r.
Qed.

Lemma fresh_low_stock_distinct (now : Z) (rows : list Row) :
  forall vis,
  NoDup (map row_key rows) ->
  forallb (fun row => at_most_one (low_stock_lookup vis row)) rows = true ->
  fresh_low_stock now vis rows = Some (filter (no_pending_yet vis) rows).
Proof.
  induction rows as [|row rest IH]; intros vis ND H; [reflexivity|].
  cbn [fresh_low_stock filter forallb map] in *.
  inversion ND as [|k ks Hn Hd]; subst.
  apply andb_true_iff in H. destruct H as [H1 H2].
  assert (Hother : forall r, In r rest ->
            low_stock_lookup
              (vis ++ [insert_default now (low_stock_alert row)]) r
            = low_stock_lookup vis r).
  { intros r Hr. apply low_stock_lookup_other.
    rewrite low_stock_alert_batch_id. intro E. apply Hn. rewrite E.
    apply in_map. exact Hr. }
  unfold no_pending_yet at 1.
  destruct (low_stock_lookup vis row) as [|a [|a' l]].
  - rewrite IH.
    + cbn [option_map]. f_equal. f_equal. apply filter_ext_in.
      intros r Hr. unfold no_pending_yet. rewrite Hother by exact Hr.
      reflexivity.
    + exact Hd.
    + rewrite <- H2. apply forallb_agree.
      intros r Hr. rewrite Hother by exact Hr. reflexivity.
  - apply IH; assumption.
  - discriminate.
Qed.

Lemma run_low_stock_ok (w : World) (st : Store) :
  calm w ->
  wf_store st = true ->
  low_stock_dedup_ok st = true ->
  raised (low_stock_attempt w st) = None
  /\ run_low_stock w st
     = with_alerts
         (alerts st
          ++ map (fun row => insert_default (db_now w) (low_stock_alert row))
               (filter (no_pending_yet (alerts st)) (select_low_stock st)))
         st.
Proof.
  intros C W D.
  destruct (run_low_stock_calm w st C) as [R E].
  unfold low_stock_result in R, E.
  rewrite (fresh_low_stock_distinct (db_now w) (select_low_stock st)
             (alerts st) (low_stock_NoDup st W) D) in R, E.
  auto.
Qed.

(** ** Alerts of today and of other days *)

Lemma join_In {A B : Type} (l : list A) (r : list B) (on : A -> B -> bool)
  (a : A) (b : B) :
  In (a, b) (join l r on) <-> In a l /\ In b r /\ on a b = true.
Proof.
  unfold join. rewrite in_flat_map. split.
  - intros (a' & Ha & H). apply in_map_iff in H.
    destruct H as (b' & E & H). injection E as <- <-.
    apply filter_In in H. tauto.
  - intros (Ha & Hb & E). exists a. split; [exact Ha|].
    apply in_map. apply filter_In. auto.
Qed.

Lemma rows_In (st : Store) (b : Batch.t) (p : Product.t) (br : Branch.t) :
  In (b, p, br) (batch_product_branch st)
  <-> In b (batches st)
      /\ In p (products st) /\ (Batch.product_id b =? Product.id p) = true
      /\ In br (branches st) /\ (Batch.branch_id b =? Branch.id br) = true.
Proof.
  unfold batch_product_branch. rewrite join_In, join_In. cbn [fst]. tauto.
Qed.

Lemma expiry_lookup_stamped (settings : Settings) (today now : Z)
  (rows : list Row) (row : Row) :
  PyDate.midnight today <= now ->
  expiry_lookup settings today
    (map (stamped_alert settings today now) rows) row
  = alerts_for (row_key row) (alert_type_of settings today (row_batch row))
      (map (stamped_alert settings today now) rows).
Proof.
  intro H. unfold expiry_lookup, alerts_for. apply filter_ext_in.
  intros a Ha. apply in_map_iff in Ha. destruct Ha as (r & <- & _).
  unfold alert_since. rewrite stamped_alert_created_at. unfold sql_ge.
  replace (PyDate.midnight today <=? now) with true
    by (symmetry; apply Z.leb_le; exact H).
  apply andb_true_r.
Qed.

Lemma none_since_lookup (settings : Settings) (day : Z) (l : list Alert.t)
  (row : Row) :
  none_since day l = true -> expiry_lookup settings day l row = [].
Proof.
  unfold none_since, expiry_lookup. intro H.
  induction l as [|a l IH]; [reflexivity|].
  cbn [forallb] in H. apply andb_true_iff in H. destruct H as [Ha Hl].
  cbn [filter]. unfold alert_since at 1.
  apply negb_true_iff in Ha. rewrite Ha, andb_false_r. apply IH. exact Hl.
Qed.

Lemma none_since_stamped (settings : Settings) (today now day : Z)
  (rows : list Row) :
  now < PyDate.midnight day ->
  none_since day (map (stamped_alert settings today now) rows) = true.
Proof.
  intro H. unfold none_since. apply forallb_forall. intros a Ha.
  apply in_map_iff in Ha. destruct Ha as (r & <- & _).
  rewrite stamped_alert_created_at. unfold sql_ge.
  apply negb_true_iff. apply Z.leb_gt. exact H.
Qed.

Lemma none_since_app (day : Z) (l l' : list Alert.t) :
  none_since day (l ++ l') = none_since day l && none_since day l'.
Proof. unfold none_since. apply forallb_app. Qed.

Lemma length_one {A : Type} (l : list A) :
  List.length l = 1%nat -> exists a, l = [a].
Proof. destruct l as [|a [|a' l]]; cbn; try discriminate. eauto. Qed.

Lemma length_zero {A : Type} (l : list A) : List.length l = 0%nat -> l = [].
Proof. destruct l; cbn; [reflexivity | discriminate]. Qed.

(** After a pass that commits, every candidate has exactly one alert of
    today and of its type. *)
Lemma one_alert_today (settings : Settings) (today now : Z) (st : Store)
  (row : Row) :
  PyDate.midnight today <= now ->
  wf_store st = true ->
  dedup_ok settings today st = true ->
  In row (candidates settings today st) ->
  exists a,
    expiry_lookup settings today
      (alerts st
       ++ map (stamped_alert settings today now)
            (filter (no_alert_yet settings today (alerts st))
                    (candidates settings today st)))
      row
    = [a].
Proof.
  intros Hc W D Hin.
  rewrite expiry_lookup_app, expiry_lookup_stamped by exact Hc.
  pose proof (alerts_for_filtered
                (stamped_alert settings today now)
                (fun r => alert_type_of settings today (row_batch r))
                (stamped_alert_batch_id settings today now)
                (stamped_alert_type settings today now)
                (no_alert_yet settings today (alerts st))
                (candidates settings today st) row
                (candidates_NoDup settings today st W) Hin) as N.
  cbv beta in N.
  unfold dedup_ok in D. rewrite forallb_forall in D. specialize (D row Hin).
  assert (F : no_alert_yet settings today (alerts st) row
              = match expiry_lookup settings today (alerts st) row with
                | [] => true
                | _ :: _ => false
                end) by reflexivity.
  rewrite F in N. clear F.
  destruct (expiry_lookup settings today (alerts st) row) as [|x [|y l]].
  - apply length_one in N. destruct N as [a N]. rewrite N.
    exists a. reflexivity.
  - apply length_zero in N. rewrite N. exists x. reflexivity.
  - discriminate.
Qed.

(** ** What a pass that commits has added *)

Lemma added_alerts_app (st st' : Store) (l : list Alert.t) :
  alerts st' = alerts st ++ l -> added_alerts st st' = l.
Proof.
  unfold added_alerts. intros ->.
  induction (alerts st) as [|a al IH]; [reflexivity | exact IH].
Qed.

Lemma added_alerts_none (st : Store) : added_alerts st st = [].
Proof. apply added_alerts_app. rewrite app_nil_r. reflexivity. Qed.

Lemma run_expiry_added (w : World) (settings : Settings) (st : Store) :
  calm w ->
  wf_store st = true ->
  dedup_ok settings (date_today w) st = true ->
  window_ok settings (date_today w) = true ->
  added_alerts st (run_expiry w settings st)
  = map (stamped_alert settings (date_today w) (db_now w))
        (alerted settings (date_today w) st).
Proof.
  intros C W D K. apply added_alerts_app.
  destruct (run_expiry_ok w settings st C W D K) as [_ R].
  rewrite R. reflexivity.
Qed.

(** The alerts of one batch among those made for rows with distinct keys. *)
Lemma alerts_of_key_absent (settings : Settings) (today now k : Z)
  (rows : list Row) :
  (forall r, In r rows -> row_key r <> k) ->
  filter (fun a => Alert.batch_id a =? k)
         (map (stamped_alert settings today now) rows) = [].
Proof.
  induction rows as [|r rows IH]; intro H; [reflexivity|].
  cbn [map filter]. rewrite stamped_alert_batch_id.
  destruct (Z.eqb_spec (row_key r) k) as [E|_].
  - exfalso. apply (H r); [left; reflexivity | exact E].
  - apply IH. intros r' Hr'. apply H. right. exact Hr'.
Qed.

Lemma alerts_of_key_present (settings : Settings) (today now : Z)
  (rows : list Row) (row : Row) :
  NoDup (map row_key rows) ->
  In row rows ->
  filter (fun a => Alert.batch_id a =? row_key row)
         (map (stamped_alert settings today now) rows)
  = [stamped_alert settings today now row].
Proof.
  induction rows as [|r rows IH]; intros ND Hin; [contradiction|].
  inversion ND as [|k ks Hn Hd]; subst.
  cbn [map filter]. rewrite stamped_alert_batch_id.
  destruct Hin as [->|Hin].
  - rewrite Z.eqb_refl. f_equal. apply alerts_of_key_absent.
    intros r' Hr' E. apply Hn. rewrite <- E. apply in_map. exact Hr'.
  - destruct (Z.eqb_spec (row_key r) (row_key row)) as [E|_].
    + exfalso. apply Hn. rewrite E. apply in_map. exact Hin.
    + apply IH; assumption.
Qed.

(** A batch of the window has its row among the candidates. *)
Lemma batch_candidate (settings : Settings) (today : Z) (st : Store)
  (batch : Batch.t) :
  wf_store st = true ->
  window_ok settings today = true ->
  In batch (batches st) ->
  expiring_soon today (today + EXPIRY_WARNING_DAYS settings) batch = true ->
  exists row,
    In row (candidates settings today st) /\ row_batch row = batch.
Proof.
  intros W K Hin E.
  assert (H : In batch (map row_batch (candidates settings today st))).
  { rewrite candidates_batches by assumption. apply filter_In. auto. }
  apply in_map_iff in H. destruct H as (row & Hb & Hr). eauto.
Qed.

(** A batch without an alert of the day has none in the lookup of its
    row. *)
Lemma no_alert_of_the_day (settings : Settings) (today : Z)
  (vis : list Alert.t) (row : Row) :
  (forall a, In a vis ->
             Alert.batch_id a = row_key row ->
             sql_ge (Alert.created_at a) (PyDate.midnight today) = false) ->
  no_alert_yet settings today vis row = true.
Proof.
  intro H. unfold no_alert_yet, expiry_lookup.
  replace (filter _ vis) with (@nil Alert.t); [reflexivity|].
  symmetry. induction vis as [|a vis IH]; [reflexivity|].
  cbn [filter]. unfold alert_since at 1.
  destruct (Z.eqb_spec (Alert.batch_id a) (Batch.id (row_batch row)))
    as [E|_].
  - rewrite (H a (or_introl eq_refl) E), andb_false_r.
    apply IH. intros a' Ha'. apply H. right. exact Ha'.
  - cbn [andb]. apply IH. intros a' Ha'. apply H. right. exact Ha'.
Qed.

(** The alerts a pass that commits has added for one batch: the alert of
    its row when the batch is in the window and has none of the day. *)
Lemma added_for_batch (w : World) (settings : Settings) (st : Store)
  (batch : Batch.t) :
  calm w ->
  wf_store st = true ->
  dedup_ok settings (date_today w) st = true ->
  window_ok settings (date_today w) = true ->
  In batch (batches st) ->
  (forall a, In a (alerts st) ->
             Alert.batch_id a = Batch.id batch ->
             sql_ge (Alert.created_at a) (PyDate.midnight (date_today w))
             = false) ->
  if expiring_soon (date_today w)
       (date_today w + EXPIRY_WARNING_DAYS settings) batch
  then exists product branch,
         In (batch, product, branch) (batch_product_branch st)
         /\ filter (fun a => Alert.batch_id a =? Batch.id batch)
                   (added_alerts st (run_expiry w settings st))
            = [stamped_alert settings (date_today w) (db_now w)
                 (batch, product, branch)]
  else filter (fun a => Alert.batch_id a =? Batch.id batch)
              (added_alerts st (run_expiry w settings st)) = [].
Proof.
  intros C W D K Hin Hnone.
  rewrite run_expiry_added by assumption. unfold alerted.
  pose proof (candidates_NoDup settings (date_today w) st W) as ND.
  destruct (expiring_soon _ _ batch) eqn:E.
  - destruct (batch_candidate settings (date_today w) st batch W K Hin E)
      as (row & Hrow & Hb).
    destruct row as [[b product] branch]. cbn in Hb. subst b.
    exists product, branch. split.
    + rewrite candidates_window in Hrow by exact K.
      apply filter_In in Hrow. apply Hrow.
    + apply (alerts_of_key_present settings (date_today w) (db_now w)
               _ (batch, product, branch)).
      * apply NoDup_map_filter. exact ND.
      * apply filter_In. split; [exact Hrow|].
        apply no_alert_of_the_day. exact Hnone.
  - apply alerts_of_key_absent. intros r Hr Ek.
    apply filter_In in Hr. destruct Hr as [Hr _].
    destruct (candidate_in settings (date_today w) st r Hr) as [Hb Er].
    assert (row_batch r = batch).
    { apply (NoDup_map_inj Batch.id (batches st)); auto.
      apply wf_store_keys. exact W. }
    subst batch. congruence.
Qed.

(** ** Classification *)

(** C2. With [critical_days < warning_days], what a pass that commits does
    with a batch that is active and not yet flagged expired (in stock,
    unless its date has passed, and without an alert of the day) is what
    the classifier of the specification says for its expiry date. Expired,
    up to today: the row is flagged expired and inactive and gets no alert.
    Critical, up to [today + critical_days], and warning, up to
    [today + warning_days]: the row is left as it is and the pass adds one
    alert for it, of that level and type, with [expiry_date - today] as its
    days-to-expiry snapshot. Beyond: nothing is done. On 2024-06-10 with
    thresholds 5 and 1: expiry 2024-06-11 is critical with one day
    remaining, 2024-06-15 is warning, 2024-06-09 is expired. *)
Theorem classification_matches_spec (w : World) (settings : Settings)
  (st : Store) (batch : Batch.t) :
  calm w ->
  wf_store st = true ->
  dedup_ok settings (date_today w) st = true ->
  window_ok settings (date_today w) = true ->
  EXPIRY_CRITICAL_DAYS settings < EXPIRY_WARNING_DAYS settings ->
  In batch (batches st) ->
  Batch.is_active batch = Some true ->
  Batch.is_expired batch = Some false ->
  Batch.expiry_date batch <= date_today w
  \/ 0 < Batch.current_quantity batch ->
  (forall a, In a (alerts st) ->
             Alert.batch_id a = Batch.id batch ->
             sql_ge (Alert.created_at a) (PyDate.midnight (date_today w))
             = false) ->
  let st' := run_expiry w settings st in
  let mine := filter (fun a => Alert.batch_id a =? Batch.id batch)
                     (added_alerts st st') in
  match classify_spec (Batch.expiry_date batch) (date_today w)
          (EXPIRY_WARNING_DAYS settings) (EXPIRY_CRITICAL_DAYS settings) with
  | tier_expired =>
      In (Batch.set_updated_at (db_now w)
            (Batch.set_is_active false (Batch.set_is_expired true batch)))
         (batches st')
      /\ mine = []
  | tier_critical =>
      In batch (batches st')
      /\ exists a,
           mine = [a]
           /\ Alert.alert_level a = "critical"%string
           /\ Alert.alert_type a = "expiry_critical"%string
           /\ Alert.days_to_expiry a
              = Some (Batch.expiry_date batch - date_today w)
  | tier_warning =>
      In batch (batches st')
      /\ exists a,
           mine = [a]
           /\ Alert.alert_level a = "warning"%string
           /\ Alert.alert_type a = "expiry_warning"%string
           /\ Alert.days_to_expiry a
              = Some (Batch.expiry_date batch - date_today w)
  | tier_none => In batch (batches st') /\ mine = []
  end.
Proof.
  intros C W D K Hcw Hin Ha He Hq Hnone st' mine.
  set (today := date_today w) in *. set (now := db_now w) in *.
  set (e := Batch.expiry_date batch) in *.
  pose proof (added_for_batch w settings st batch C W D K Hin Hnone) as A.
  fold today now st' mine in A.
  destruct (run_expiry_ok w settings st C W D K) as [_ R].
  fold today now st' in R.
  assert (Hrow : In (expire today now batch) (batches st')).
  { rewrite R. cbn [batches]. apply in_map. exact Hin. }
  assert (Hdue : expired_due today batch = (e <=? today)).
  { unfold expired_due. rewrite Ha, He. cbn. apply andb_true_r. }
  assert (Hsoon : expiring_soon today (today + EXPIRY_WARNING_DAYS settings)
                    batch
                  = (today <? e) && (e <=? today + EXPIRY_WARNING_DAYS settings)
                    && (0 <? Batch.current_quantity batch)).
  { unfold expiring_soon. rewrite Ha. reflexivity. }
  assert (Hfields : forall product branch,
            let a := stamped_alert settings today now
                       (batch, product, branch) in
            Alert.alert_level a
            = (if e - today <=? EXPIRY_CRITICAL_DAYS settings
               then "critical"%string else "warning"%string)
            /\ Alert.alert_type a
               = (if e - today <=? EXPIRY_CRITICAL_DAYS settings
                  then "expiry_critical"%string
                  else "expiry_warning"%string)
            /\ Alert.days_to_expiry a = Some (e - today)).
  { intros product branch.
    unfold stamped_alert, insert_default, expiry_alert, alert_fields,
      is_critical, PyDate.days_between. fold e.
    destruct (e - today <=? EXPIRY_CRITICAL_DAYS settings); cbn; auto. }
  unfold expire in Hrow. rewrite Hdue in Hrow. rewrite Hsoon in A.
  unfold classify_spec.
  destruct (e <=? today) eqn:E1.
  - apply Z.leb_le in E1. split; [exact Hrow|].
    replace (today <? e) with false in A
      by (symmetry; apply Z.ltb_ge; exact E1).
    exact A.
  - apply Z.leb_gt in E1.
    assert (Hq' : 0 < Batch.current_quantity batch) by lia.
    replace (today <? e) with true in * by (symmetry; apply Z.ltb_lt; lia).
    replace (0 <? Batch.current_quantity batch) with true in A
      by (symmetry; apply Z.ltb_lt; exact Hq').
    cbn [andb] in *. rewrite andb_true_r in A.
    destruct (e <=? today + EXPIRY_CRITICAL_DAYS settings) eqn:E2.
    + apply Z.leb_le in E2.
      replace (e <=? today + EXPIRY_WARNING_DAYS settings) with true in A
        by (symmetry; apply Z.leb_le; lia).
      destruct A as (product & branch & _ & A).
      split; [exact Hrow|]. eexists. split; [exact A|].
      destruct (Hfields product branch) as (F1 & F2 & F3).
      replace (e - today <=? EXPIRY_CRITICAL_DAYS settings) with true in *
        by (symmetry; apply Z.leb_le; lia).
      auto.
    + apply Z.leb_gt in E2.
      replace (today + EXPIRY_CRITICAL_DAYS settings <? e) with true
        by (symmetry; apply Z.ltb_lt; lia).
      cbn [andb].
      destruct (e <=? today + EXPIRY_WARNING_DAYS settings) eqn:E3.
      * destruct A as (product & branch & _ & A).
        split; [exact Hrow|]. eexists. split; [exact A|].
        destruct (Hfields product branch) as (F1 & F2 & F3).
        replace (e - today <=? EXPIRY_CRITICAL_DAYS settings) with false in *
          by (symmetry; apply Z.leb_gt; lia).
        auto.
      * split; [exact Hrow | exact A].
Qed.

Lemma classification_matches_spec_witness :
  (exists a,
     filter (fun a => Alert.batch_id a =? 1)
            (added_alerts sample_store
               (run_expiry quiet_world default_settings sample_store))
     = [a]
     /\ Alert.alert_level a = "critical"%string
     /\ Alert.alert_type a = "expiry_critical"%string
     /\ Alert.days_to_expiry a = Some 1)
  /\ (exists a,
        filter (fun a => Alert.batch_id a =? 2)
               (added_alerts sample_store
                  (run_expiry quiet_world default_settings sample_store))
        = [a]
        /\ Alert.alert_level a = "warning"%string
        /\ Alert.alert_type a = "expiry_warning"%string
        /\ Alert.days_to_expiry a = Some 5)
  /\ In (Batch.mk 3 "B-003" 11 20 12 3 (PyDate.ymd2ord 2024 6 9)
                  (Some false) (Some true) (Some (db_now quiet_world)))
        (batches (run_expiry quiet_world default_settings sample_store)).
Proof.
  set (st' := run_expiry quiet_world default_settings sample_store).
  assert (C : calm quiet_world) by (intro n; reflexivity).
  assert (W : wf_store sample_store = true) by (vm_compute; reflexivity).
  assert (D : dedup_ok default_settings (date_today quiet_world) sample_store
              = true) by (vm_compute; reflexivity).
  assert (K : window_ok default_settings (date_today quiet_world) = true)
    by (vm_compute; reflexivity).
  assert (Hcw : EXPIRY_CRITICAL_DAYS default_settings
                < EXPIRY_WARNING_DAYS default_settings)
    by (vm_compute; reflexivity).
  assert (Hnone : forall (k : Z) (a : Alert.t),
            In a (alerts sample_store) ->
            Alert.batch_id a = k ->
            sql_ge (Alert.created_at a)
                   (PyDate.midnight (date_today quiet_world)) = false)
    by (intros k a []).
  pose (b1 := Batch.mk 1 "B-001" 10 20 12 5 (june10 + 1) (Some true)
                       (Some false) None).
  pose (b2 := Batch.mk 2 "B-002" 10 20 12 6 (june10 + 5) (Some true)
                       (Some false) None).
  pose (b3 := Batch.mk 3 "B-003" 11 20 12 3 (june10 - 1) (Some true)
                       (Some false) None).
  assert (H1 : In b1 (batches sample_store)) by (left; reflexivity).
  assert (H2 : In b2 (batches sample_store))
    by (right; left; reflexivity).
  assert (H3 : In b3 (batches sample_store))
    by (right; right; left; reflexivity).
  assert (Q1 : Batch.expiry_date b1 <= date_today quiet_world
               \/ 0 < Batch.current_quantity b1)
    by (right; reflexivity).
  assert (Q2 : Batch.expiry_date b2 <= date_today quiet_world
               \/ 0 < Batch.current_quantity b2)
    by (right; reflexivity).
  assert (Q3 : Batch.expiry_date b3 <= date_today quiet_world
               \/ 0 < Batch.current_quantity b3)
    by (right; reflexivity).
  pose proof (classification_matches_spec quiet_world default_settings
                sample_store b1 C W D K Hcw H1 eq_refl eq_refl Q1
                (Hnone (Batch.id b1))) as T1.
  pose proof (classification_matches_spec quiet_world default_settings
                sample_store b2 C W D K Hcw H2 eq_refl eq_refl Q2
                (Hnone (Batch.id b2))) as T2.
  pose proof (classification_matches_spec quiet_world default_settings
                sample_store b3 C W D K Hcw H3 eq_refl eq_refl Q3
                (Hnone (Batch.id b3))) as T3.
  cbv zeta in T1, T2, T3. fold st' in T1, T2, T3.
  assert (E1 : classify_spec (Batch.expiry_date b1) (date_today quiet_world)
                 (EXPIRY_WARNING_DAYS default_settings)
                 (EXPIRY_CRITICAL_DAYS default_settings) = tier_critical)
    by (vm_compute; reflexivity).
  assert (E2 : classify_spec (Batch.expiry_date b2) (date_today quiet_world)
                 (EXPIRY_WARNING_DAYS default_settings)
                 (EXPIRY_CRITICAL_DAYS default_settings) = tier_warning)
    by (vm_compute; reflexivity).
  assert (E3 : classify_spec (Batch.expiry_date b3) (date_today quiet_world)
                 (EXPIRY_WARNING_DAYS default_settings)
                 (EXPIRY_CRITICAL_DAYS default_settings) = tier_expired)
    by (vm_compute; reflexivity).
  rewrite E1 in T1. rewrite E2 in T2. rewrite E3 in T3.
  split; [exact (proj2 T1)|]. split; [exact (proj2 T2) | exact (proj1 T3)].
Defined.

(** ** The candidates of the expiry pass *)

Lemma fresh_rows_incl (settings : Settings) (today now : Z)
  (rows : list Row) :
  forall vis fresh,
  fresh_rows settings today now vis rows = Some fresh ->
  forall row, In row fresh -> In row rows.
Proof.
  induction rows as [|r rest IH]; intros vis fresh H row Hin.
  - cbn in H. injection H as <-. contradiction.
  - cbn [fresh_rows] in H.
    destruct (expiry_lookup settings today vis r) as [|a [|a' l]].
    + destruct (fresh_rows settings today now
                  (vis ++ [stamped_alert settings today now r]) rest)
        as [fr|] eqn:E; [|discriminate].
      cbn in H. injection H as <-.
      destruct Hin as [<-|Hin]; [left; reflexivity|].
      right. eapply IH; eauto.
    + right. eapply IH; eauto.
    + discriminate.
Qed.

(** Whatever happens, an alert found after a pass was there before it, or
    is the alert of a candidate of the pass. *)
Lemma run_expiry_alerts (w : World) (settings : Settings) (st : Store)
  (a : Alert.t) :
  In a (alerts (run_expiry w settings st)) ->
  In a (alerts st)
  \/ exists row,
       In row (candidates settings (date_today w) st)
       /\ a = stamped_alert settings (date_today w) (db_now w) row.
Proof.
  intro H.
  destruct (run_expiry_all_or_nothing w settings st) as [E|E].
  - rewrite E in H. left. exact H.
  - destruct (window_ok settings (date_today w)) eqn:K;
      [|rewrite expiry_result_no_window in E by exact K; discriminate].
    unfold expiry_result in E.
    rewrite (window_ok_some settings (date_today w) K) in E.
    rewrite <- candidates_window in E by exact K.
    destruct (fresh_rows settings (date_today w) (db_now w) (alerts st)
                (candidates settings (date_today w) st)) as [fresh|] eqn:F;
      [|discriminate].
    injection E as E. rewrite <- E in H. cbn [alerts] in H.
    apply in_app_or in H. destruct H as [H|H]; [left; exact H|].
    right. apply in_map_iff in H. destruct H as (row & <- & Hin).
    exists row. split; [|reflexivity].
    eapply fresh_rows_incl; eauto.
Qed.

(** Whatever happens, an alert a pass has added is the alert of one of its
    candidates. *)
Lemma run_expiry_added_in (w : World) (settings : Settings) (st : Store)
  (a : Alert.t) :
  In a (added_alerts st (run_expiry w settings st)) ->
  exists row,
    In row (candidates settings (date_today w) st)
    /\ a = stamped_alert settings (date_today w) (db_now w) row.
Proof.
  intro H.
  destruct (run_expiry_all_or_nothing w settings st) as [E|E].
  - rewrite E, added_alerts_none in H. contradiction.
  - destruct (window_ok settings (date_today w)) eqn:K;
      [|rewrite expiry_result_no_window in E by exact K; discriminate].
    unfold expiry_result in E.
    rewrite (window_ok_some settings (date_today w) K) in E.
    rewrite <- candidates_window in E by exact K.
    destruct (fresh_rows settings (date_today w) (db_now w) (alerts st)
                (candidates settings (date_today w) st)) as [fresh|] eqn:F;
      [|discriminate].
    injection E as E.
    rewrite (added_alerts_app st _
               (map (stamped_alert settings (date_today w) (db_now w)) fresh))
      in H by (rewrite <- E; reflexivity).
    apply in_map_iff in H. destruct H as (row & <- & Hin).
    exists row. split; [|reflexivity].
    eapply fresh_rows_incl; eauto.
Qed.

(** On a day without alerts every candidate gets one. *)
Lemma first_pass_of_the_day (settings : Settings) (today : Z) (st : Store) :
  none_since today (alerts st) = true ->
  dedup_ok settings today st = true
  /\ alerted settings today st = candidates settings today st.
Proof.
  intro N. split.
  - unfold dedup_ok. apply forallb_forall. intros row _.
    rewrite none_since_lookup by exact N. reflexivity.
  - unfold alerted.
    induction (candidates settings today st) as [|row rows IH];
      [reflexivity|].
    cbn [filter]. unfold no_alert_yet at 1.
    rewrite none_since_lookup by exact N. f_equal. exact IH.
Qed.

(** C6. The batches a pass considers for a warning or critical alert are
    exactly the active batches in stock whose expiry date lies in
    [(today, today + warning_days]]: on a day without alerts yet, a pass in
    which nothing fails commits and the alerts it adds are those of these
    batches, one for each and in their order; on any day, such a pass adds
    one alert for a batch without an alert of the day when the batch is one
    of these, and none when it is not. In every pass, a batch with quantity
    0 gets no expiry alert, even with its expiry date in that window. *)
Theorem candidates_are_the_window (w : World) (settings : Settings)
  (st : Store) :
  wf_store st = true ->
  (calm w ->
   window_ok settings (date_today w) = true ->
   none_since (date_today w) (alerts st) = true ->
   raised (expiry_attempt w settings st) = None
   /\ map Alert.batch_id (added_alerts st (run_expiry w settings st))
      = map Batch.id
          (filter (fun b =>
                     sql_is_true (Batch.is_active b)
                     && (0 <? Batch.current_quantity b)
                     && ((date_today w <? Batch.expiry_date b)
                         && (Batch.expiry_date b
                             <=? date_today w + EXPIRY_WARNING_DAYS settings)))
                  (batches st)))
  /\ (calm w ->
      window_ok settings (date_today w) = true ->
      dedup_ok settings (date_today w) st = true ->
      forall b,
        In b (batches st) ->
        (forall a, In a (alerts st) ->
                   Alert.batch_id a = Batch.id b ->
                   sql_ge (Alert.created_at a)
                          (PyDate.midnight (date_today w)) = false) ->
        List.length
          (filter (fun a => Alert.batch_id a =? Batch.id b)
                  (added_alerts st (run_expiry w settings st)))
        = if sql_is_true (Batch.is_active b)
             && (0 <? Batch.current_quantity b)
             && ((date_today w <? Batch.expiry_date b)
                 && (Batch.expiry_date b
                     <=? date_today w + EXPIRY_WARNING_DAYS settings))
          then 1%nat else 0%nat)
  /\ forall b a,
       In b (batches st) ->
       Batch.current_quantity b = 0 ->
       In a (alerts (run_expiry w settings st)) ->
       Alert.batch_id a = Batch.id b ->
       In a (alerts st).
Proof.
  intro W. split; [|split].
  - intros C K N.
    destruct (first_pass_of_the_day settings (date_today w) st N) as [D F].
    split; [apply (run_expiry_ok w settings st C W D K)|].
    rewrite run_expiry_added by assumption. rewrite F, map_map.
    rewrite (map_ext _ row_key)
      by (intro row; apply stamped_alert_batch_id).
    unfold row_key. rewrite <- (map_map row_batch Batch.id).
    rewrite candidates_batches by assumption. f_equal.
    apply filter_ext. intro b. unfold expiring_soon.
    destruct (sql_is_true (Batch.is_active b)),
      (0 <? Batch.current_quantity b),
      (date_today w <? Batch.expiry_date b),
      (Batch.expiry_date b <=? date_today w + EXPIRY_WARNING_DAYS settings);
      reflexivity.
  - intros C K D b Hb Hnone.
    pose proof (added_for_batch w settings st b C W D K Hb Hnone) as A.
    replace (sql_is_true (Batch.is_active b)
             && (0 <? Batch.current_quantity b)
             && ((date_today w <? Batch.expiry_date b)
                 && (Batch.expiry_date b
                     <=? date_today w + EXPIRY_WARNING_DAYS settings)))
      with (expiring_soon (date_today w)
              (date_today w + EXPIRY_WARNING_DAYS settings) b).
    + destruct (expiring_soon _ _ b).
      * destruct A as (product & branch & _ & ->). reflexivity.
      * rewrite A. reflexivity.
    + unfold expiring_soon.
      destruct (sql_is_true (Batch.is_active b)),
        (0 <? Batch.current_quantity b),
        (date_today w <? Batch.expiry_date b),
        (Batch.expiry_date b
         <=? date_today w + EXPIRY_WARNING_DAYS settings);
        reflexivity.
  - intros b a Hb Hq Ha Hid.
    destruct (run_expiry_alerts w settings st a Ha) as [H|(row & Hrow & ->)];
      [exact H|].
    exfalso. rewrite stamped_alert_batch_id in Hid.
    destruct (candidate_in settings (date_today w) st row Hrow) as [Hin E].
    assert (row_batch row = b).
    { apply (NoDup_map_inj Batch.id (batches st)); auto.
      apply distinct_NoDup. unfold wf_store in W.
      rewrite !andb_true_iff in W. apply W. }
    subst b. unfold expiring_soon in E. rewrite Hq in E.
    rewrite andb_false_r in E. discriminate.
Qed.

(** ** Configuration *)

(** C7, as stated, fails: thresholds with [critical_days >= warning_days]
    are accepted at start, and the expiry job runs with them. *)
Lemma inverted_thresholds_accepted :
  ~ (forall env settings,
       get_settings env = inr settings ->
       EXPIRY_CRITICAL_DAYS settings < EXPIRY_WARNING_DAYS settings)
  /\ get_settings inverted_env = inr (mkSettings 5 7)
  /\ exists st,
       startup inverted_env quiet_world sample_store = inr st
       /\ map Alert.alert_level (alerts st)
          = ["critical"%string; "critical"%string].
Proof.
  split.
  - intro H. specialize (H inverted_env (mkSettings 5 7) eq_refl).
    cbn in H. lia.
  - split; [reflexivity|].
    eexists. split; vm_compute; reflexivity.
Qed.

(** C7, amended. The settings take whatever integers the environment gives
    for the two thresholds (5 and 1 when it gives none) and compare them
    with nothing: every pair is accepted and the expiry job is started with
    it. With [critical_days] at or above [warning_days], every alert a pass
    adds is critical, and a pass in which nothing fails gives every batch
    of the window that has no alert of the day its critical alert: there is
    no warning tier left. A threshold for which [today] plus the threshold
    is no date is accepted as well; every pass then fails with an
    [OverflowError] before its first query and leaves the store as it is. *)
Theorem thresholds_are_not_checked (env : Environ) (warning_days
  critical_days : Z) :
  int_field env "EXPIRY_WARNING_DAYS" 5 = inr warning_days ->
  int_field env "EXPIRY_CRITICAL_DAYS" 1 = inr critical_days ->
  get_settings env = inr (mkSettings warning_days critical_days)
  /\ get_settings [] = inr default_settings
  /\ EXPIRY_CRITICAL_DAYS default_settings
     < EXPIRY_WARNING_DAYS default_settings
  /\ (forall w st,
        startup env w st
        = inr (run_expiry w (mkSettings warning_days critical_days) st))
  /\ (warning_days <= critical_days ->
      forall w st,
        (forall a,
           In a (added_alerts st
                   (run_expiry w (mkSettings warning_days critical_days) st)) ->
           Alert.alert_level a = "critical"%string
           /\ Alert.alert_type a = "expiry_critical"%string)
        /\ (calm w ->
            wf_store st = true ->
            dedup_ok (mkSettings warning_days critical_days) (date_today w) st
            = true ->
            window_ok (mkSettings warning_days critical_days) (date_today w)
            = true ->
            raised (expiry_attempt w (mkSettings warning_days critical_days)
                      st) = None
            /\ forall batch,
                 In batch (batches st) ->
                 expiring_soon (date_today w) (date_today w + warning_days)
                   batch = true ->
                 (forall a, In a (alerts st) ->
                            Alert.batch_id a = Batch.id batch ->
                            sql_ge (Alert.created_at a)
                                   (PyDate.midnight (date_today w)) = false) ->
                 exists a,
                   filter (fun a => Alert.batch_id a =? Batch.id batch)
                          (added_alerts st
                             (run_expiry w
                                (mkSettings warning_days critical_days) st))
                   = [a]))
  /\ (forall w st,
        window_ok (mkSettings warning_days critical_days) (date_today w)
        = false ->
        (exists msg,
           raised (expiry_attempt w (mkSettings warning_days critical_days)
                     st) = Some (OverflowError msg))
        /\ run_expiry w (mkSettings warning_days critical_days) st = st).
Proof.
  intros Hw Hc.
  assert (G : get_settings env = inr (mkSettings warning_days critical_days)).
  { unfold get_settings. rewrite Hw, Hc. reflexivity. }
  split; [exact G|]. split; [reflexivity|].
  split; [cbn; lia|].
  split; [intros w st; unfold startup; rewrite G; reflexivity|].
  set (settings := mkSettings warning_days critical_days).
  split.
  - intros Hle w st. split.
    + intros a Ha.
      destruct (run_expiry_added_in w settings st a Ha) as (row & Hrow & ->).
      destruct (candidate_in settings (date_today w) st row Hrow) as [_ E].
      destruct row as [[b p] br]. cbn [row_batch fst] in E.
      assert (Cr : is_critical settings (date_today w) b = true).
      { unfold is_critical, PyDate.days_between.
        unfold expiring_soon in E. rewrite !andb_true_iff in E.
        destruct E as [[[_ _] E] _]. apply Z.leb_le in E.
        apply Z.leb_le. cbn [settings EXPIRY_WARNING_DAYS
                               EXPIRY_CRITICAL_DAYS] in *. lia. }
      unfold stamped_alert, insert_default, expiry_alert, alert_fields.
      rewrite Cr. cbn. auto.
    + intros C W D K.
      split; [apply (run_expiry_ok w settings st C W D K)|].
      intros batch Hin E Hnone.
      pose proof (added_for_batch w settings st batch C W D K Hin Hnone) as A.
      cbn [settings EXPIRY_WARNING_DAYS] in A. rewrite E in A.
      destruct A as (product & branch & _ & A). eauto.
  - intros w st K.
    pose proof (run_expiry_outcome w settings st) as O.
    destruct (raised (expiry_attempt w settings st)) as [e|].
    + destruct O as [R O]. split; [|exact R].
      destruct e; try contradiction.
      * destruct O as [K' _]. congruence.
      * destruct O as [K' _]. congruence.
      * eauto.
    + rewrite expiry_result_no_window in O by exact K. discriminate.
Qed.

Lemma thresholds_are_not_checked_witness :
  get_settings inverted_env = inr (mkSettings 5 7).
Proof.
  exact (proj1 (thresholds_are_not_checked inverted_env 5 7 eq_refl eq_refl)).
Defined.

(** ** The low-stock threshold *)




(** ** The expired transition *)

Lemma mark_ids_flags (now : Z) (ids : list Z) (bs : list Batch.t) :
  Forall flags_ok bs -> Forall flags_ok (mark_ids now ids bs).
Proof.
  unfold mark_ids. intro H. apply Forall_map.
  eapply Forall_impl; [|exact H].
  intros b Hb. destruct (existsb _ ids); [|exact Hb].
  unfold flags_ok, mark_expired. reflexivity.
Qed.

Lemma mark_ids_keeps_expired (now : Z) (ids : list Z) (bs : list Batch.t) :
  Forall2 (fun b b' =>
             Batch.id b' = Batch.id b
             /\ (Batch.is_expired b = Some true ->
                 Batch.is_expired b' = Some true))
          bs (mark_ids now ids bs).
Proof.
  unfold mark_ids. induction bs as [|b bs IH]; cbn [map]; constructor; auto.
  destruct (existsb _ ids); auto.
Qed.

Lemma Forall2_same {A : Type} (R : A -> A -> Prop) (l : list A) :
  (forall x, R x x) -> Forall2 R l l.
Proof. intro H. induction l; constructor; auto. Qed.

(** The batches after a pass, whatever happened in it. *)
Lemma run_expiry_batches (w : World) (settings : Settings) (st : Store) :
  batches (run_expiry w settings st) = batches st
  \/ batches (run_expiry w settings st)
     = expire_all (date_today w) (db_now w) (batches st).
Proof.
  destruct (run_expiry_all_or_nothing w settings st) as [E|E].
  - left. rewrite E. reflexivity.
  - right. unfold expiry_result in E.
    destruct (window settings (date_today w)) as [[wd cd]|]; [|discriminate].
    destruct (fresh_rows settings _ _ _ _); [|discriminate].
    injection E as E. rewrite <- E. reflexivity.
Qed.

(** C3. When no statement fails, no lookup finds two rows and the dates
    of the window exist, the pass commits and flags every batch that is
    active, not yet flagged expired and with [expiry_date <= today] as
    expired and inactive, whatever its quantity; the UPDATE also stamps the
    row. A flagged batch is not selected by any later pass, and a second
    pass of the same day changes no batch. In every pass, committed or
    rolled back, the flags of the batches keep [is_expired = true] implies
    [is_active = false] when they had it, and a batch flagged expired stays
    flagged. *)
Theorem expired_batches_are_flagged_once (w : World) (settings : Settings)
  (st : Store) :
  (calm w ->
   wf_store st = true ->
   dedup_ok settings (date_today w) st = true ->
   window_ok settings (date_today w) = true ->
   raised (expiry_attempt w settings st) = None
   /\ (forall b,
      In b (batches st) ->
      Batch.is_active b = Some true ->
      Batch.is_expired b = Some false ->
      Batch.expiry_date b <= date_today w ->
      In (Batch.set_updated_at (db_now w)
            (Batch.set_is_active false (Batch.set_is_expired true b)))
         (batches (run_expiry w settings st)))
   /\ (forall w2 settings2,
         date_today w2 = date_today w ->
         batches (run_expiry w2 settings2 (run_expiry w settings st))
         = batches (run_expiry w settings st)))
  /\ (forall b today2 now,
        expired_due today2
          (Batch.set_updated_at now
             (Batch.set_is_active false (Batch.set_is_expired true b)))
        = false)
  /\ (Forall flags_ok (batches st) ->
      Forall flags_ok (batches (run_expiry w settings st)))
  /\ Forall2 (fun b b' =>
                Batch.id b' = Batch.id b
                /\ (Batch.is_expired b = Some true ->
                    Batch.is_expired b' = Some true))
             (batches st) (batches (run_expiry w settings st)).
Proof.
  split; [|split; [|split]].
  - intros C W D K.
    destruct (run_expiry_ok w settings st C W D K) as [Hcommit R].
    split; [exact Hcommit|]. split.
    + intros b Hb Ha He Hd. rewrite R. cbn [batches].
      apply in_map_iff. exists b. split; [|exact Hb].
      unfold expire, expired_due. rewrite Ha, He.
      replace (Batch.expiry_date b <=? date_today w) with true
        by (symmetry; apply Z.leb_le; exact Hd).
      reflexivity.
    + intros w2 settings2 Hday.
      destruct (run_expiry_batches w2 settings2 (run_expiry w settings st))
        as [E|E]; [exact E|].
      rewrite E, Hday.
      assert (B : batches (run_expiry w settings st)
                  = expire_all (date_today w) (db_now w) (batches st)).
      { rewrite R. cbn [batches]. symmetry.
        apply expire_all_keyed. apply wf_store_keys. exact W. }
      unfold expire_all at 1. rewrite B at 1.
      rewrite (expire_all_again (date_today w) (date_today w)) by lia.
      apply mark_ids_nil.
  - intros b today2 now. reflexivity.
  - intro H.
    destruct (run_expiry_batches w settings st) as [E|E]; rewrite E;
      [exact H|].
    apply mark_ids_flags. exact H.
  - destruct (run_expiry_batches w settings st) as [E|E]; rewrite E.
    + apply Forall2_same. auto.
    + apply mark_ids_keeps_expired.
Qed.

Lemma expired_batches_are_flagged_once_witness :
  In (Batch.mk 3 "B-003" 11 20 12 3 (june10 - 1) (Some false) (Some true)
               (Some (db_now quiet_world)))
     (batches (run_expiry quiet_world default_settings sample_store)).
Proof.
  pose proof (expired_batches_are_flagged_once quiet_world default_settings
                sample_store) as H.
  destruct H as [H _].
  assert (C : calm quiet_world) by (intro n; reflexivity).
  assert (W : wf_store sample_store = true) by (vm_compute; reflexivity).
  assert (D : dedup_ok default_settings (date_today quiet_world) sample_store
              = true) by (vm_compute; reflexivity).
  assert (K : window_ok default_settings (date_today quiet_world) = true)
    by (vm_compute; reflexivity).
  destruct (H C W D K) as (_ & H1 & _).
  apply (H1 (Batch.mk 3 "B-003" 11 20 12 3 (june10 - 1) (Some true)
                      (Some false) None)).
  - cbn. auto.
  - reflexivity.
  - reflexivity.
  - vm_compute. discriminate.
Defined.

(** ** The unit of work *)

(** C4. When anything fails in a pass, whatever the statement and whatever
    was already added or flagged in the transaction, the store is left as
    the pass found it (every alert and every batch flag) and the failure is
    logged; when nothing fails, the store holds the whole pass. Nothing in
    between is ever kept. *)
Theorem pass_is_one_unit_of_work (w : World) (settings : Settings)
  (st : Store) :
  (forall e,
     raised (expiry_attempt w settings st) = Some e ->
     run_expiry w settings st = st
     /\ In (ERROR ("Error in expiry check task: " +++ str_exn e))
           (log (snd (check_expiring_batches w settings (open_session st)))))
  /\ (raised (expiry_attempt w settings st) = None ->
      expiry_result settings (date_today w) (db_now w) st
      = Some (run_expiry w settings st))
  /\ (run_expiry w settings st = st
      \/ expiry_result settings (date_today w) (db_now w) st
         = Some (run_expiry w settings st)).
Proof.
  pose proof (run_expiry_outcome w settings st) as O.
  split; [|split].
  - intros e He. rewrite He in O. split; [apply O|].
    rewrite check_expiring_batches_run.
    unfold raised in He.
    destruct (expiry_attempt w settings st) as [[e'|a] s']; cbn in He;
      [|discriminate].
    injection He as ->. cbn [snd log]. apply in_or_app. right. left.
    reflexivity.
  - intro Hn. rewrite Hn in O. exact O.
  - apply run_expiry_all_or_nothing.
Qed.

Lemma pass_is_one_unit_of_work_witness :
  run_expiry failing_commit_world default_settings sample_store = sample_store
  /\ List.length
       (alerts (txn (tx (snd (expiry_attempt failing_commit_world
                                default_settings sample_store))))) = 2%nat.
Proof.
  split.
  - pose proof (proj1 (pass_is_one_unit_of_work failing_commit_world
                         default_settings sample_store)) as H.
    assert (E : raised (expiry_attempt failing_commit_world default_settings
                          sample_store)
                = Some (DBAPIError "connection lost"))
      by (vm_compute; reflexivity).
    apply (proj1 (H _ E)).
  - vm_compute. reflexivity.
Defined.

(** C10. When the store holds two or more of today's alerts for a candidate
    of the pass (a row of its first query, so the dates of the window
    exist) and the type it gets today, the pass fails (at the lookup, with
    [MultipleResultsFound], when no statement fails before) and is rolled
    back: it creates no alert and flags no batch. *)
Theorem ambiguous_lookup_aborts (w : World) (settings : Settings)
  (st : Store) (row : Row) :
  In row (candidates settings (date_today w) st) ->
  (2 <= List.length
          (select_alert_today (Batch.id (row_batch row))
             (alert_type_of settings (date_today w) (row_batch row))
             (date_today w) st))%nat ->
  (exists e,
     raised (expiry_attempt w settings st) = Some e
     /\ (calm w -> e = MultipleResultsFound))
  /\ run_expiry w settings st = st.
Proof.
  intros Hin Hlen.
  pose proof (candidate_window_ok _ _ _ _ Hin) as K.
  assert (N : expiry_result settings (date_today w) (db_now w) st = None).
  { unfold expiry_result.
    rewrite (window_ok_some settings (date_today w) K).
    rewrite <- candidates_window by exact K.
    rewrite (fresh_rows_ambiguous settings (date_today w) (db_now w)
               (candidates settings (date_today w) st) (alerts st));
      [reflexivity|].
    exists row. split; [exact Hin|].
    unfold expiry_lookup. unfold select_alert_today in Hlen.
    destruct (filter _ (alerts st)) as [|a [|a' l]]; cbn in Hlen;
      [lia | lia | reflexivity]. }
  pose proof (run_expiry_outcome w settings st) as O.
  destruct (raised (expiry_attempt w settings st)) as [e|] eqn:R.
  - split; [|apply O].
    exists e. split; [reflexivity|].
    intro C. destruct (run_expiry_calm w settings st C) as [_ E].
    rewrite N, K in E. congruence.
  - rewrite N in O. discriminate.
Qed.

Lemma ambiguous_lookup_aborts_witness :
  raised (expiry_attempt quiet_world default_settings twice_alerted_store)
  = Some MultipleResultsFound
  /\ run_expiry quiet_world default_settings twice_alerted_store
     = twice_alerted_store.
Proof.
  pose (row := (Batch.mk 2 "B-002" 10 20 12 6 (june10 + 5) (Some true)
                         (Some false) None,
                Product.mk 10 "Milk", Branch.mk 20 "Main") : Row).
  assert (Hin : In row (candidates default_settings (date_today quiet_world)
                          twice_alerted_store)).
  { vm_compute. right. left. reflexivity. }
  assert (Hlen : (2 <= List.length
                         (select_alert_today (Batch.id (row_batch row))
                            (alert_type_of default_settings
                               (date_today quiet_world) (row_batch row))
                            (date_today quiet_world) twice_alerted_store))%nat).
  { vm_compute. apply le_n. }
  destruct (ambiguous_lookup_aborts quiet_world default_settings
              twice_alerted_store row Hin Hlen) as [(e & He & Hc) R].
  split; [|exact R].
  rewrite He. f_equal. apply Hc. intro n. reflexivity.
Defined.

(** C5. What a pass leaves in the store, and whether it fails, does not
    depend on the notification service: replace it by any other, failing
    where the first did not, and the store after the pass is the same. In a
    pass that commits (no statement fails, no lookup finds two rows, the
    dates of the window exist), the alert of every candidate that had none
    today is in the store whether or not its notification failed, and a
    failed notification is in the log. *)
Theorem notification_failure_is_isolated (w : World) (settings : Settings)
  (st : Store) :
  (forall mail send,
     let w' := mkWorld (date_today w) (db_now w) (db_fault w) mail send in
     run_expiry w' settings st = run_expiry w settings st
     /\ raised (expiry_attempt w' settings st)
        = raised (expiry_attempt w settings st))
  /\ (calm w ->
      wf_store st = true ->
      dedup_ok settings (date_today w) st = true ->
      window_ok settings (date_today w) = true ->
      forall batch product branch,
        In (batch, product, branch) (candidates settings (date_today w) st) ->
        select_alert_today (Batch.id batch)
          (alert_type_of settings (date_today w) batch) (date_today w) st
        = [] ->
        In (insert_default (db_now w)
              (expiry_alert settings (date_today w) (batch, product, branch)))
           (alerts (run_expiry w settings st))
        /\ forall msg,
             mail_config_fault w = Some msg
             \/ (mail_config_fault w = None
                 /\ send_fault w branch product batch
                      (PyDate.days_between (Batch.expiry_date batch)
                                           (date_today w))
                      (alert_level_of settings (date_today w) batch)
                    = Some msg) ->
             In (ERROR ("Failed to send notification: " +++ msg))
                (log (snd (check_expiring_batches w settings
                             (open_session st))))).
Proof.
  split.
  - intros mail send w'. apply run_expiry_same_data.
    unfold same_data, w'. cbn. auto.
  - intros C W D K batch product branch Hin Hnone.
    assert (Hfresh : In (batch, product, branch)
                        (filter (no_alert_yet settings (date_today w)
                                   (alerts st))
                                (candidates settings (date_today w) st))).
    { apply filter_In. split; [exact Hin|].
      unfold no_alert_yet, expiry_lookup, row_batch. cbn [fst].
      unfold select_alert_today in Hnone. rewrite Hnone. reflexivity. }
    split.
    + destruct (run_expiry_ok w settings st C W D K) as [_ R]. rewrite R.
      cbn [alerts]. apply in_or_app. right.
      apply in_map_iff. exists (batch, product, branch). auto.
    + intros msg Hfail.
      destruct (check_expiring_batches_log w settings st C W D K)
        as [done Hlog].
      rewrite Hlog. apply in_or_app. right. apply in_or_app. left.
      apply in_flat_map. exists (batch, product, branch).
      split; [exact Hfresh|].
      unfold gateway_log.
      destruct Hfail as [Hm|[Hm Hs]]; rewrite Hm; [|rewrite Hs];
        cbn; auto.
Qed.

Lemma notification_failure_is_isolated_witness :
  run_expiry no_mail_world default_settings sample_store
  = run_expiry quiet_world default_settings sample_store
  /\ In (ERROR "Failed to send notification: mail configuration rejected")
        (log (snd (check_expiring_batches no_mail_world default_settings
                     (open_session sample_store)))).
Proof.
  pose proof (notification_failure_is_isolated no_mail_world default_settings
                sample_store) as [H1 H2].
  split.
  - symmetry. exact (proj1 (H1 None (fun _ _ _ _ _ => None))).
  - assert (C : calm no_mail_world) by (intro n; reflexivity).
    assert (W : wf_store sample_store = true) by (vm_compute; reflexivity).
    assert (D : dedup_ok default_settings (date_today no_mail_world)
                  sample_store = true) by (vm_compute; reflexivity).
    assert (K : window_ok default_settings (date_today no_mail_world)
                = true) by (vm_compute; reflexivity).
    pose (batch := Batch.mk 1 "B-001" 10 20 12 5 (june10 + 1) (Some true)
                            (Some false) None).
    assert (Hin : In (batch, Product.mk 10 "Milk", Branch.mk 20 "Main")
                     (candidates default_settings (date_today no_mail_world)
                        sample_store)).
    { vm_compute. left. reflexivity. }
    assert (Hnone : select_alert_today (Batch.id batch)
                      (alert_type_of default_settings
                         (date_today no_mail_world) batch)
                      (date_today no_mail_world) sample_store = [])
      by reflexivity.
    destruct (H2 C W D K batch (Product.mk 10 "Milk") (Branch.mk 20 "Main")
                Hin Hnone) as [_ L].
    apply (L "mail configuration rejected"%string). left. reflexivity.
Defined.

(** ** The low-stock job *)




(** ** Deduplication of expiry alerts *)

Lemma candidates_after (settings : Settings) (today today2 now : Z)
  (st : Store) (al : list Alert.t) (row : Row) :
  In row (candidates settings today2
            (mkStore (map (expire today now) (batches st)) (products st)
                     (branches st) al)) ->
  In row (candidates settings today2 st).
Proof.
  unfold candidates.
  destruct (window settings today2) as [[wd cd]|]; [|auto].
  rewrite !select_expiring_filter, !filter_In.
  destruct row as [[b p] br]. rewrite !rows_In.
  cbn [batches products branches]. unfold row_batch. cbn [fst].
  intros [(Hb & H) E]. split; [|exact E]. split; [|exact H].
  apply in_map_iff in Hb. destruct Hb as (b0 & Hb0 & Hin).
  unfold expire in Hb0. destruct (expired_due today b0).
  - exfalso. subst b. unfold expiring_soon, mark_expired in E. cbn in E.
    discriminate.
  - subst b0. exact Hin.
Qed.

Lemma candidates_before (settings : Settings) (today today2 now : Z)
  (st : Store) (al : list Alert.t) (row : Row) :
  today <= today2 ->
  In row (candidates settings today2 st) ->
  In row (candidates settings today2
            (mkStore (map (expire today now) (batches st)) (products st)
                     (branches st) al)).
Proof.
  intro Hle.
  unfold candidates.
  destruct (window settings today2) as [[wd cd]|]; [|auto].
  rewrite !select_expiring_filter, !filter_In.
  destruct row as [[b p] br]. rewrite !rows_In.
  cbn [batches products branches]. unfold row_batch. cbn [fst].
  intros [(Hb & H) E]. split; [|exact E]. split; [|exact H].
  apply in_map_iff. exists b. split; [|exact Hb].
  unfold expire. destruct (expired_due today b) eqn:X; [|reflexivity].
  exfalso. unfold expired_due in X. unfold expiring_soon in E.
  rewrite !andb_true_iff in X. rewrite !andb_true_iff in E.
  destruct X as [[_ X] _]. destruct E as [[[_ E] _] _].
  apply Z.leb_le in X. apply Z.ltb_lt in E. lia.
Qed.

Lemma expiry_lookup_same_batch (settings : Settings) (today : Z)
  (vis : list Alert.t) (row row' : Row) :
  row_batch row = row_batch row' ->
  expiry_lookup settings today vis row = expiry_lookup settings today vis row'.
Proof. unfold expiry_lookup. intros ->. reflexivity. Qed.

(** A second pass of the day finds every candidate alerted and nothing to
    flag: it leaves the store as it is. *)
Lemma second_pass_is_idle (settings : Settings) (today now now2 : Z)
  (st : Store) :
  PyDate.midnight today <= now ->
  wf_store st = true ->
  dedup_ok settings today st = true ->
  window_ok settings today = true ->
  forall st1,
  expiry_result settings today now st = Some st1 ->
  expiry_result settings today now2 st1 = Some st1.
Proof.
  intros Hc W D K st1 R.
  rewrite (expiry_result_ok settings today now st W D K) in R.
  injection R as R.
  unfold expiry_result. rewrite (window_ok_some settings today K).
  rewrite <- candidates_window by exact K.
  rewrite (fresh_rows_all_known settings today now2
             (candidates settings today st1) (alerts st1)).
  - f_equal. cbn [map]. rewrite app_nil_r.
    assert (B : batches st1 = expire_all today now (batches st)).
    { rewrite <- R. cbn [batches]. symmetry.
      apply expire_all_keyed. apply wf_store_keys. exact W. }
    unfold expire_all at 1. rewrite B at 1.
    rewrite (expire_all_again today today) by lia.
    cbn [map]. rewrite mark_ids_nil.
    destruct st1; reflexivity.
  - intros row Hrow. rewrite <- R in Hrow.
    apply candidates_after in Hrow.
    rewrite <- R. cbn [alerts].
    apply one_alert_today; assumption.
Qed.

(** C1. When no statement fails, no lookup finds two rows and the dates
    of the window exist, the pass commits, and a candidate gets a new alert
    of the type of its tier exactly when the store holds no alert of that
    batch and type created since today's midnight; it then gets one. After
    the pass every candidate has exactly one such alert, and a second pass
    of the same day leaves the store as it is. A pass of the next day
    creates one more alert for a batch that is still a candidate then, with
    the same alert type. *)
Theorem expiry_alert_once_a_day (w : World) (settings : Settings)
  (st : Store) :
  calm w ->
  clock_ok w ->
  wf_store st = true ->
  dedup_ok settings (date_today w) st = true ->
  window_ok settings (date_today w) = true ->
  raised (expiry_attempt w settings st) = None
  /\ exists added,
    alerts (run_expiry w settings st) = alerts st ++ added
    /\ (forall row,
          In row (candidates settings (date_today w) st) ->
          List.length
            (alerts_for (Batch.id (row_batch row))
               (alert_type_of settings (date_today w) (row_batch row)) added)
          = match select_alert_today (Batch.id (row_batch row))
                    (alert_type_of settings (date_today w) (row_batch row))
                    (date_today w) st with
            | [] => 1%nat
            | _ :: _ => 0%nat
            end)
    /\ (forall row,
          In row (candidates settings (date_today w) st) ->
          exists a,
            select_alert_today (Batch.id (row_batch row))
              (alert_type_of settings (date_today w) (row_batch row))
              (date_today w) (run_expiry w settings st)
            = [a])
    /\ (forall w2,
          calm w2 ->
          date_today w2 = date_today w ->
          run_expiry w2 settings (run_expiry w settings st)
          = run_expiry w settings st)
    /\ (forall w2 row,
          calm w2 ->
          date_today w2 = date_today w + 1 ->
          none_since (date_today w + 1) (alerts st) = true ->
          In row (candidates settings (date_today w) st) ->
          In row (candidates settings (date_today w + 1) st) ->
          alert_type_of settings (date_today w + 1) (row_batch row)
          = alert_type_of settings (date_today w) (row_batch row) ->
          exists added2,
            alerts (run_expiry w2 settings (run_expiry w settings st))
            = alerts (run_expiry w settings st) ++ added2
            /\ List.length
                 (alerts_for (Batch.id (row_batch row))
                    (alert_type_of settings (date_today w) (row_batch row))
                    added2)
               = 1%nat).
Proof.
  intros C [Hc1 Hc2] W D K.
  set (today := date_today w) in *. set (now := db_now w) in *.
  destruct (run_expiry_ok w settings st C W D K) as [Hcommit R].
  split; [exact Hcommit|].
  fold today now in R.
  destruct (run_expiry_calm w settings st C) as [RC _].
  fold today now in RC.
  pose proof (expiry_result_ok settings today now st W D K) as ER.
  set (added := map (stamped_alert settings today now)
                    (filter (no_alert_yet settings today (alerts st))
                            (candidates settings today st))) in *.
  exists added. split; [rewrite R; reflexivity|].
  split; [|split; [|split]].
  - intros row Hin. change (Batch.id (row_batch row)) with (row_key row).
    unfold added.
    rewrite (alerts_for_filtered
               (stamped_alert settings today now)
               (fun r => alert_type_of settings today (row_batch r))
               (stamped_alert_batch_id settings today now)
               (stamped_alert_type settings today now)
               (no_alert_yet settings today (alerts st))
               (candidates settings today st) row
               (candidates_NoDup settings today st W) Hin).
    unfold no_alert_yet, expiry_lookup, select_alert_today, row_key.
    destruct (filter _ (alerts st)); reflexivity.
  - intros row Hin. rewrite R.
    apply (one_alert_today settings today now st row Hc1 W D Hin).
  - intros w2 C2 Hday.
    destruct (run_expiry_calm w2 settings (run_expiry w settings st) C2)
      as [R2 _].
    rewrite R2, Hday. fold today.
    rewrite (second_pass_is_idle settings today now (db_now w2) st Hc1 W D
               K (run_expiry w settings st)); [reflexivity|].
    rewrite ER, R. reflexivity.
  - intros w2 row C2 Hday Hnone Hin Hin2 Hty.
    pose proof (candidate_window_ok _ _ _ _ Hin2) as K2.
    set (st1 := run_expiry w settings st) in *.
    assert (W1 : wf_store st1 = true).
    { rewrite R. apply wf_store_expired. exact W. }
    assert (N1 : none_since (today + 1) (alerts st1) = true).
    { rewrite R. cbn [alerts]. rewrite none_since_app, Hnone.
      apply none_since_stamped. exact Hc2. }
    assert (D2 : dedup_ok settings (date_today w2) st1 = true).
    { rewrite Hday. unfold dedup_ok. apply forallb_forall. intros r _.
      rewrite none_since_lookup by exact N1. reflexivity. }
    assert (K2' : window_ok settings (date_today w2) = true)
      by (rewrite Hday; exact K2).
    destruct (run_expiry_ok w2 settings st1 C2 W1 D2 K2') as [_ R2].
    rewrite Hday in R2.
    eexists. split; [rewrite R2; reflexivity|].
    change (Batch.id (row_batch row)) with (row_key row).
    rewrite <- Hty.
    rewrite (alerts_for_filtered
               (stamped_alert settings (today + 1) (db_now w2))
               (fun r => alert_type_of settings (today + 1) (row_batch r))
               (stamped_alert_batch_id settings (today + 1) (db_now w2))
               (stamped_alert_type settings (today + 1) (db_now w2))
               (no_alert_yet settings (today + 1) (alerts st1))
               (candidates settings (today + 1) st1) row
               (candidates_NoDup settings (today + 1) st1 W1)).
    + unfold no_alert_yet. rewrite none_since_lookup by exact N1.
      reflexivity.
    + rewrite R. apply candidates_before; [lia | exact Hin2].
Qed.

Lemma expiry_alert_once_a_day_witness :
  run_expiry quiet_world default_settings
    (run_expiry quiet_world default_settings sample_store)
  = run_expiry quiet_world default_settings sample_store
  /\ exists added2,
       alerts (run_expiry next_day_world default_settings
                 (run_expiry quiet_world default_settings sample_store))
       = alerts (run_expiry quiet_world default_settings sample_store)
         ++ added2
       /\ List.length (alerts_for 2 "expiry_warning" added2) = 1%nat.
Proof.
  assert (C : calm quiet_world) by (intro n; reflexivity).
  assert (K : clock_ok quiet_world).
  { split; [apply Z.leb_le | apply Z.ltb_lt]; vm_compute; reflexivity. }
  assert (W : wf_store sample_store = true) by (vm_compute; reflexivity).
  assert (D : dedup_ok default_settings (date_today quiet_world) sample_store
              = true) by (vm_compute; reflexivity).
  assert (Kw : window_ok default_settings (date_today quiet_world) = true)
    by (vm_compute; reflexivity).
  destruct (expiry_alert_once_a_day quiet_world default_settings sample_store
              C K W D Kw) as (_ & added & _ & _ & _ & Hsame & Hnext).
  split.
  - apply Hsame; [exact C | reflexivity].
  - pose (row := (Batch.mk 2 "B-002" 10 20 12 6 (june10 + 5) (Some true)
                           (Some false) None,
                  Product.mk 10 "Milk", Branch.mk 20 "Main") : Row).
    assert (C2 : calm next_day_world) by (intro n; reflexivity).
    assert (Hin : In row (candidates default_settings
                            (date_today quiet_world) sample_store)).
    { vm_compute. right. left. reflexivity. }
    assert (Hin2 : In row (candidates default_settings
                             (date_today quiet_world + 1) sample_store)).
    { vm_compute. left. reflexivity. }
    assert (T : alert_type_of default_settings (date_today quiet_world + 1)
                  (row_batch row)
                = alert_type_of default_settings (date_today quiet_world)
                    (row_batch row)) by (vm_compute; reflexivity).
    apply (Hnext next_day_world row C2 eq_refl eq_refl Hin Hin2 T).
Defined.

Lemma candidates_are_the_window_witness :
  map Alert.batch_id
      (added_alerts sample_store
         (run_expiry quiet_world default_settings sample_store))
  = [1; 2].
Proof.
  assert (C : calm quiet_world) by (intro n; reflexivity).
  assert (W : wf_store sample_store = true) by (vm_compute; reflexivity).
  assert (K : window_ok default_settings (date_today quiet_world) = true)
    by (vm_compute; reflexivity).
  assert (N : none_since (date_today quiet_world) (alerts sample_store)
              = true) by reflexivity.
  rewrite (proj2 (proj1 (candidates_are_the_window quiet_world
                           default_settings sample_store W) C K N)).
  vm_compute. reflexivity.
Defined.

(** * Further properties of the jobs *)

(** ** The low-stock pass as a unit of work *)

(** X1. When anything fails in a pass of the low-stock job, the store is
    left as the pass found it and the failure is logged; when nothing fails
    the store holds the whole pass: the alerts it had, then one alert for
    each candidate the scan found without a pending one. Products, branches
    and batches are never touched. *)
Theorem low_stock_pass_is_one_unit_of_work (w : World) (st : Store) :
  (forall e,
     raised (low_stock_attempt w st) = Some e ->
     run_low_stock w st = st
     /\ In (ERROR ("Error in low stock check: " +++ str_exn e))
           (log (snd (check_low_stock w (open_session st)))))
  /\ (raised (low_stock_attempt w st) = None ->
      exists fresh,
        fresh_low_stock (db_now w) (alerts st) (select_low_stock st)
        = Some fresh
        /\ alerts (run_low_stock w st)
           = alerts st
             ++ map (fun row => insert_default (db_now w) (low_stock_alert row))
                    fresh)
  /\ products (run_low_stock w st) = products st
  /\ branches (run_low_stock w st) = branches st
  /\ batches (run_low_stock w st) = batches st.
Proof.
  pose proof (run_low_stock_outcome w st) as O.
  split; [|split].
  - intros e He. rewrite He in O. split; [apply O|].
    rewrite check_low_stock_run. unfold raised in He.
    destruct (low_stock_attempt w st) as [[e'|a] s']; cbn in He;
      [|discriminate].
    injection He as ->. cbn [snd log]. apply in_or_app. right. left.
    reflexivity.
  - intro Hn. rewrite Hn in O. unfold low_stock_result in O.
    destruct (fresh_low_stock (db_now w) (alerts st) (select_low_stock st))
      as [fresh|]; [|discriminate].
    injection O as O. exists fresh. split; [reflexivity|].
    rewrite <- O. reflexivity.
  - destruct (raised (low_stock_attempt w st)).
    + destruct O as [-> _]. auto.
    + unfold low_stock_result in O.
      destruct (fresh_low_stock _ _ _); [|discriminate].
      injection O as <-. auto.
Qed.

Lemma low_stock_pass_is_one_unit_of_work_witness :
  run_low_stock failing_low_stock_commit_world sample_store = sample_store
  /\ List.length
       (alerts (txn (tx (snd (low_stock_attempt failing_low_stock_commit_world
                                sample_store))))) = 1%nat.
Proof.
  split.
  - pose proof (proj1 (low_stock_pass_is_one_unit_of_work
                         failing_low_stock_commit_world sample_store)) as H.
    assert (E : raised (low_stock_attempt failing_low_stock_commit_world
                          sample_store)
                = Some (DBAPIError "connection lost"))
      by (vm_compute; reflexivity).
    apply (proj1 (H _ E)).
  - vm_compute. reflexivity.
Defined.

(** ** Two pending alerts for one batch *)

Lemma low_stock_lookup_app (vis extra : list Alert.t) (row : Row) :
  low_stock_lookup (vis ++ extra) row
  = low_stock_lookup vis row ++ low_stock_lookup extra row.
Proof. unfold low_stock_lookup. apply filter_app. Qed.

Lemma fresh_low_stock_ambiguous (now : Z) (rows : list Row) :
  forall vis,
  (exists row, In row rows /\ at_most_one (low_stock_lookup vis row) = false) ->
  fresh_low_stock now vis rows = None.
Proof.
  induction rows as [|row rest IH]; intros vis (bad & Hin & Hbad).
  { contradiction. }
  cbn [fresh_low_stock].
  destruct (low_stock_lookup vis row) as [|a [|a' l]] eqn:E.
  - destruct Hin as [<-|Hin]; [rewrite E in Hbad; discriminate|].
    rewrite IH; [reflexivity|].
    exists bad. split; [exact Hin|].
    rewrite low_stock_lookup_app.
    destruct (low_stock_lookup vis bad) as [|x [|y t]]; try discriminate.
    reflexivity.
  - destruct Hin as [<-|Hin]; [rewrite E in Hbad; discriminate|].
    apply IH. eauto.
  - reflexivity.
Qed.

(** X2. When the store holds two or more pending low-stock alerts for a
    candidate, the pass of the low-stock job fails (at the lookup, when no
    statement fails before) and is rolled back: no candidate gets an alert,
    not even one that has none. *)
Theorem ambiguous_pending_aborts (w : World) (st : Store) (row : Row) :
  In row (select_low_stock st) ->
  (2 <= List.length
          (select_pending_low_stock (Batch.id (row_batch row)) st))%nat ->
  (exists e,
     raised (low_stock_attempt w st) = Some e
     /\ (calm w -> e = MultipleResultsFound))
  /\ run_low_stock w st = st.
Proof.
  intros Hin Hlen.
  assert (N : low_stock_result (db_now w) st = None).
  { unfold low_stock_result.
    rewrite (fresh_low_stock_ambiguous (db_now w) (select_low_stock st)
               (alerts st)); [reflexivity|].
    exists row. split; [exact Hin|].
    unfold low_stock_lookup. unfold select_pending_low_stock in Hlen.
    destruct (filter _ (alerts st)) as [|a [|a' l]]; cbn in Hlen;
      [lia | lia | reflexivity]. }
  pose proof (run_low_stock_outcome w st) as O.
  destruct (raised (low_stock_attempt w st)) as [e|] eqn:R.
  - split; [|apply O].
    exists e. split; [reflexivity|].
    intro C. destruct (run_low_stock_calm w st C) as [_ E].
    rewrite R, N in E. injection E as ->. reflexivity.
  - rewrite N in O. discriminate.
Qed.

Lemma ambiguous_pending_aborts_witness :
  raised (low_stock_attempt quiet_world twice_low_stock_store)
  = Some MultipleResultsFound
  /\ run_low_stock quiet_world twice_low_stock_store = twice_low_stock_store.
Proof.
  pose (row := (Batch.mk 1 "B-001" 10 20 12 5 (june10 + 1) (Some true)
                         (Some false) None,
                Product.mk 10 "Milk", Branch.mk 20 "Main") : Row).
  assert (Hin : In row (select_low_stock twice_low_stock_store)).
  { vm_compute. left. reflexivity. }
  assert (Hlen : (2 <= List.length
                         (select_pending_low_stock (Batch.id (row_batch row))
                            twice_low_stock_store))%nat).
  { vm_compute. apply le_n. }
  destruct (ambiguous_pending_aborts quiet_world twice_low_stock_store row
              Hin Hlen) as [(e & He & Hc) R].
  split; [|exact R].
  rewrite He. f_equal. apply Hc. intro n. reflexivity.
Defined.

(** ** A low-stock alert stays open *)

Lemma low_stock_lookup_fresh (now : Z) (rows : list Row) (row : Row) :
  low_stock_lookup
    (map (fun r => insert_default now (low_stock_alert r)) rows) row
  = alerts_for (row_key row) "low_stock"
      (map (fun r => insert_default now (low_stock_alert r)) rows).
Proof.
  unfold low_stock_lookup, alerts_for. apply filter_ext_in.
  intros a Ha. apply in_map_iff in Ha. destruct Ha as ([[b p] br] & <- & _).
  unfold pending_low_stock, row_key. cbn. apply andb_true_r.
Qed.

Lemma one_pending_after (now : Z) (st : Store) (row : Row) :
  wf_store st = true ->
  low_stock_dedup_ok st = true ->
  In row (select_low_stock st) ->
  exists a,
    low_stock_lookup
      (alerts st
       ++ map (fun r => insert_default now (low_stock_alert r))
            (filter (no_pending_yet (alerts st)) (select_low_stock st)))
      row
    = [a].
Proof.
  intros W D Hin.
  rewrite low_stock_lookup_app, low_stock_lookup_fresh.
  pose proof (alerts_for_filtered
                (fun r => insert_default now (low_stock_alert r))
                (fun _ => "low_stock"%string)
                (low_stock_alert_batch_id now)
                ltac:(intros [[b p] br]; reflexivity)
                (no_pending_yet (alerts st)) (select_low_stock st) row
                (low_stock_NoDup st W) Hin) as N.
  cbv beta in N.
  unfold low_stock_dedup_ok in D. rewrite forallb_forall in D.
  specialize (D row Hin).
  assert (F : no_pending_yet (alerts st) row
              = match low_stock_lookup (alerts st) row with
                | [] => true
                | _ :: _ => false
                end) by reflexivity.
  rewrite F in N. clear F.
  destruct (low_stock_lookup (alerts st) row) as [|x [|y l]].
  - apply length_one in N. destruct N as [a N]. rewrite N.
    exists a. reflexivity.
  - apply length_zero in N. rewrite N. exists x. reflexivity.
  - discriminate.
Qed.

Lemma fresh_low_stock_all_known (now : Z) (rows : list Row)
  (vis : list Alert.t) :
  (forall row, In row rows -> exists a, low_stock_lookup vis row = [a]) ->
  fresh_low_stock now vis rows = Some [].
Proof.
  induction rows as [|row rest IH]; intro H; [reflexivity|].
  cbn [fresh_low_stock].
  destruct (H row (or_introl eq_refl)) as [a ->].
  apply IH. intros r Hr. apply H. right. exact Hr.
Qed.

(** X3. Once a pass of the low-stock job has committed, another pass
    changes nothing, on the same day or on any later one and whatever the
    clock shows: a pending low-stock alert suppresses new ones until its
    status changes (expiry alerts, by contrast, are created again each
    day). *)
Theorem low_stock_alert_stays_open (w w2 : World) (st : Store) :
  calm w ->
  wf_store st = true ->
  low_stock_dedup_ok st = true ->
  calm w2 ->
  run_low_stock w2 (run_low_stock w st) = run_low_stock w st.
Proof.
  intros C W D C2.
  destruct (run_low_stock_ok w st C W D) as [_ R].
  destruct (run_low_stock_calm w2 (run_low_stock w st) C2) as [R2 _].
  rewrite R2. unfold low_stock_result.
  rewrite (fresh_low_stock_all_known (db_now w2)
             (select_low_stock (run_low_stock w st))
             (alerts (run_low_stock w st))).
  - cbn [map]. rewrite app_nil_r, R. reflexivity.
  - intros row Hin. rewrite R in Hin |- *. cbn [alerts with_alerts].
    apply one_pending_after; assumption.
Qed.

Lemma low_stock_alert_stays_open_witness :
  run_low_stock next_day_world (run_low_stock quiet_world sample_store)
  = run_low_stock quiet_world sample_store.
Proof.
  assert (C : calm quiet_world) by (intro n; reflexivity).
  assert (W : wf_store sample_store = true) by (vm_compute; reflexivity).
  assert (D : low_stock_dedup_ok sample_store = true)
    by (vm_compute; reflexivity).
  assert (C2 : calm next_day_world) by (intro n; reflexivity).
  exact (low_stock_alert_stays_open quiet_world next_day_world sample_store
           C W D C2).
Defined.

(** ** What a pass of the expiry job leaves alone *)

Lemma mark_ids_only_flags (now : Z) (ids : list Z) (bs : list Batch.t) :
  Forall2 (fun b b' =>
             b' = b
             \/ b' = Batch.set_updated_at now
                       (Batch.set_is_active false
                          (Batch.set_is_expired true b)))
          bs (mark_ids now ids bs).
Proof.
  unfold mark_ids. induction bs as [|b bs IH]; cbn [map]; constructor; auto.
  destruct (existsb _ ids); auto.
Qed.

(** X4. A pass of the expiry job, committed or rolled back, leaves every
    product and branch row as it is and keeps every alert that was in the
    store, in place and unchanged. A batch row is left as it is or is
    updated, and the update writes three columns and no other: the two
    flags, set to expired and inactive, and [updated_at], set to the clock
    of the data store. No quantity, date or reference is ever written. *)
Theorem expiry_pass_writes_flags_and_new_alerts (w : World)
  (settings : Settings) (st : Store) :
  products (run_expiry w settings st) = products st
  /\ branches (run_expiry w settings st) = branches st
  /\ (exists added, alerts (run_expiry w settings st) = alerts st ++ added)
  /\ Forall2 (fun b b' =>
                b' = b
                \/ b' = Batch.set_updated_at (db_now w)
                          (Batch.set_is_active false
                             (Batch.set_is_expired true b)))
             (batches st) (batches (run_expiry w settings st)).
Proof.
  destruct (run_expiry_all_or_nothing w settings st) as [E|E].
  - rewrite E. split; [reflexivity|]. split; [reflexivity|].
    split; [exists []; symmetry; apply app_nil_r|].
    apply Forall2_same. auto.
  - unfold expiry_result in E.
    destruct (window settings (date_today w)) as [[wd cd]|]; [|discriminate].
    destruct (fresh_rows settings _ _ _ _) as [fresh|]; [|discriminate].
    injection E as E. rewrite <- E. cbn [products branches alerts batches].
    split; [reflexivity|]. split; [reflexivity|].
    split; [eexists; reflexivity|].
    apply mark_ids_only_flags.
Qed.

(** ** The alerts a pass creates *)

(** X5. Every alert a pass of the expiry job adds to the store is pending,
    carries the clock of the data store, and belongs to a batch of the
    store that is active and in stock, under the branch that batch refers
    to; its days-to-expiry snapshot is [expiry_date - today], between 1 and
    [warning_days]; it is critical with type [expiry_critical] when the
    snapshot is at most [critical_days], and warning with type
    [expiry_warning] otherwise. *)
Theorem new_expiry_alerts_are_well_formed (w : World) (settings : Settings)
  (st : Store) (a : Alert.t) :
  In a (alerts (run_expiry w settings st)) ->
  In a (alerts st)
  \/ exists batch branch,
       In batch (batches st)
       /\ In branch (branches st)
       /\ Batch.branch_id batch = Branch.id branch
       /\ Alert.batch_id a = Batch.id batch
       /\ Alert.branch_id a = Batch.branch_id batch
       /\ Batch.is_active batch = Some true
       /\ 0 < Batch.current_quantity batch
       /\ Alert.status a = Some "pending"%string
       /\ Alert.created_at a = Some (db_now w)
       /\ Alert.days_to_expiry a
          = Some (Batch.expiry_date batch - date_today w)
       /\ 1 <= Batch.expiry_date batch - date_today w
          <= EXPIRY_WARNING_DAYS settings
       /\ ((Batch.expiry_date batch - date_today w
            <= EXPIRY_CRITICAL_DAYS settings
            /\ Alert.alert_level a = "critical"%string
            /\ Alert.alert_type a = "expiry_critical"%string)
           \/ (EXPIRY_CRITICAL_DAYS settings
               < Batch.expiry_date batch - date_today w
               /\ Alert.alert_level a = "warning"%string
               /\ Alert.alert_type a = "expiry_warning"%string)).
Proof.
  intro H.
  destruct (run_expiry_alerts w settings st a H) as [H0|(row & Hrow & ->)];
    [left; exact H0 | right].
  destruct row as [[b p] br].
  pose proof (candidate_window_ok _ _ _ _ Hrow) as K.
  rewrite candidates_window in Hrow by exact K.
  rewrite select_expiring_filter in Hrow.
  apply filter_In in Hrow. destruct Hrow as [Hin E].
  apply rows_In in Hin. destruct Hin as (Hb & _ & _ & Hbr & Ebr).
  apply Z.eqb_eq in Ebr.
  unfold row_batch in E. cbn [fst] in E.
  unfold expiring_soon in E.
  rewrite !andb_true_iff in E. destruct E as [[[Ea E1] E2] Eq].
  apply Z.ltb_lt in E1. apply Z.leb_le in E2. apply Z.ltb_lt in Eq.
  exists b, br.
  split; [exact Hb|]. split; [exact Hbr|]. split; [exact Ebr|].
  assert (Hact : Batch.is_active b = Some true).
  { destruct (Batch.is_active b) as [[|]|]; try discriminate. reflexivity. }
  unfold stamped_alert, insert_default, expiry_alert, alert_fields,
    is_critical, PyDate.days_between.
  destruct (Batch.expiry_date b - date_today w
            <=? EXPIRY_CRITICAL_DAYS settings) eqn:Ec; cbn.
  - apply Z.leb_le in Ec. repeat split; auto; try lia.
  - apply Z.leb_gt in Ec. repeat split; auto; try lia.
Qed.

Lemma new_expiry_alerts_are_well_formed_witness :
  exists a,
    In a (alerts (run_expiry quiet_world default_settings sample_store))
    /\ Alert.alert_type a = "expiry_critical"%string
    /\ Alert.days_to_expiry a = Some 1.
Proof.
  pose (a := insert_default (db_now quiet_world)
               (expiry_alert default_settings (date_today quiet_world)
                  (Batch.mk 1 "B-001" 10 20 12 5 (june10 + 1) (Some true)
                            (Some false) None,
                   Product.mk 10 "Milk", Branch.mk 20 "Main"))).
  assert (Hin : In a (alerts (run_expiry quiet_world default_settings
                                sample_store))).
  { vm_compute. left. reflexivity. }
  exists a. split; [exact Hin|].
  destruct (new_expiry_alerts_are_well_formed quiet_world default_settings
              sample_store a Hin) as [H|_].
  - vm_compute in H. contradiction.
  - split; vm_compute; reflexivity.
Defined.

(** X6. A batch outside the [where] clause of the candidates (inactive,
    out of stock, expiring today or earlier, or later than
    [today + warning_days]) gets no alert from a pass of the expiry job: an
    expired batch is flagged without any alert. *)
Theorem only_window_batches_are_alerted (w : World) (settings : Settings)
  (st : Store) (b : Batch.t) (a : Alert.t) :
  wf_store st = true ->
  In b (batches st) ->
  expiring_soon (date_today w)
    (date_today w + EXPIRY_WARNING_DAYS settings) b = false ->
  In a (alerts (run_expiry w settings st)) ->
  Alert.batch_id a = Batch.id b ->
  In a (alerts st).
Proof.
  intros W Hb E Ha Hid.
  destruct (run_expiry_alerts w settings st a Ha) as [H|(row & Hrow & ->)];
    [exact H|].
  exfalso. rewrite stamped_alert_batch_id in Hid.
  destruct (candidate_in settings (date_today w) st row Hrow) as [Hin E'].
  assert (row_batch row = b).
  { apply (NoDup_map_inj Batch.id (batches st)); auto.
    apply wf_store_keys. exact W. }
  subst b. congruence.
Qed.

Lemma only_window_batches_are_alerted_witness :
  In old_alert (alerts (run_expiry quiet_world default_settings
                          old_alert_store))
  /\ In old_alert (alerts old_alert_store).
Proof.
  pose (b := Batch.mk 3 "B-003" 11 20 12 3 (june10 - 1) (Some true)
                      (Some false) None).
  assert (W : wf_store old_alert_store = true) by (vm_compute; reflexivity).
  assert (Hb : In b (batches old_alert_store)).
  { vm_compute. right. right. left. reflexivity. }
  assert (E : expiring_soon (date_today quiet_world)
                (date_today quiet_world
                 + EXPIRY_WARNING_DAYS default_settings) b = false)
    by (vm_compute; reflexivity).
  assert (Ha : In old_alert
                 (alerts (run_expiry quiet_world default_settings
                            old_alert_store))).
  { vm_compute. left. reflexivity. }
  assert (Hid : Alert.batch_id old_alert = Batch.id b) by reflexivity.
  split; [exact Ha|].
  exact (only_window_batches_are_alerted quiet_world default_settings
           old_alert_store b old_alert W Hb E Ha Hid).
Defined.

(** ** The log of a pass and the order of its effects *)

Lemma alert_loop_trips (w : World) (settings : Settings) (today : Z)
  (rows : list Row) :
  forall (ac ns : Z) (s : Session),
  match alert_loop w settings today rows ac ns s with
  | (inr _, s') =>
      round_trips (tx s') = (round_trips (tx s) + List.length rows)%nat
  | (inl (DBAPIError msg), _) =>
      exists n,
        (round_trips (tx s) <= n < round_trips (tx s) + List.length rows)%nat
        /\ db_fault w n = Some msg
  | (inl _, _) => True
  end.
Proof.
  induction rows as [|row rest IH]; intros ac ns s.
  - cbn. lia.
  - rewrite alert_loop_cons.
    destruct (db_fault w (round_trips (tx s))) as [msg|] eqn:Hf.
    { exists (round_trips (tx s)). cbn [List.length]. split; [lia|exact Hf]. }
    cbv zeta.
    destruct (expiry_lookup settings today (visible (db_now w) (tx s)) row)
      as [|a [|a' l']]; [| |exact I].
    + match goal with
      | |- context [alert_loop w settings today rest ?ac1 ?ns1 ?s1] =>
          specialize (IH ac1 ns1 s1);
          destruct (alert_loop w settings today rest ac1 ns1 s1)
            as [[e|r] s']
      end.
      * cbn [tx round_trips sent flushed List.length] in *.
        destruct e; try exact I. destruct IH as (n & Hn & Hm).
        exists n. split; [lia | exact Hm].
      * cbn [tx round_trips sent flushed List.length] in *. lia.
    + match goal with
      | |- context [alert_loop w settings today rest ?ac1 ?ns1 ?s1] =>
          specialize (IH ac1 ns1 s1);
          destruct (alert_loop w settings today rest ac1 ns1 s1)
            as [[e|r] s']
      end.
      * cbn [tx round_trips sent flushed List.length] in *.
        destruct e; try exact I. destruct IH as (n & Hn & Hm).
        exists n. split; [lia | exact Hm].
      * cbn [tx round_trips sent flushed List.length] in *. lia.
Qed.

Lemma expiry_pass_trace (w : World) (settings : Settings) (st : Store)
  (lg : list LogRecord) :
  wf_store st = true ->
  dedup_ok settings (date_today w) st = true ->
  window_ok settings (date_today w) = true ->
  (forall n, (n < commit_statement settings (date_today w) st)%nat ->
             db_fault w n = None) ->
  let fresh := alerted settings (date_today w) st in
  let r := expiry_pass w settings (mkSession (mkTx st st [] 0) lg) in
  match db_fault w (commit_statement settings (date_today w) st) with
  | Some msg =>
      fst r = inl (DBAPIError msg)
      /\ log (snd r)
         = lg ++ flat_map (gateway_log w settings (date_today w)) fresh
  | None =>
      fst r = inr tt
      /\ log (snd r)
         = lg ++ flat_map (gateway_log w settings (date_today w)) fresh
           ++ [INFO (completed_message
                       (Z.of_nat (List.length fresh))
                       (Z.of_nat
                          (List.length
                             (filter (gateway_ok w settings (date_today w))
                                     fresh)))
                       (Z.of_nat
                          (List.length (select_expired (date_today w) st))))]
  end.
Proof.
  intros W D K Hno fresh r. subst r.
  unfold commit_statement in *.
  set (today := date_today w) in *.
  assert (Hfr : fresh_rows settings today (db_now w) (alerts st)
                  (candidates settings today st) = Some fresh).
  { apply fresh_rows_distinct; [apply candidates_NoDup; exact W | exact D]. }
  destruct (expiry_pass w settings (mkSession (mkTx st st [] 0) lg))
    as [r s'] eqn:E.
  cbn [fst snd].
  unfold expiry_pass in E. fold today in E. cbv zeta in E.
  pose proof (window_ok_some settings today K) as Kw. unfold window in Kw.
  unfold bind at 1 in E. unfold date_plus_days at 1 in E.
  destruct (PyDate.add_days today (EXPIRY_WARNING_DAYS settings)) as [m|wd];
    [discriminate|].
  cbv beta iota delta [ret] in E.
  unfold bind at 1 in E. unfold date_plus_days at 1 in E.
  destruct (PyDate.add_days today (EXPIRY_CRITICAL_DAYS settings)) as [m|cd];
    [discriminate|].
  cbv beta iota delta [ret] in E.
  injection Kw as Ewd Ecd.
  unfold bind at 1 in E. rewrite execute_run in E.
  cbn [tx round_trips log] in E.
  rewrite (Hno 0%nat) in E by lia.
  set (s1 := mkSession (sent (flushed (db_now w) (mkTx st st [] 0))) lg)
    in E.
  assert (Hrows : select_expiring today wd
                    (txn (flushed (db_now w) (mkTx st st [] 0)))
                  = candidates settings today st).
  { rewrite candidates_window by exact K. rewrite Ewd. reflexivity. }
  rewrite Hrows in E. set (rows := candidates settings today st) in *.
  assert (Hvis : visible (db_now w) (tx s1) = alerts st).
  { unfold s1, sent, flushed, visible. cbn. rewrite !app_nil_r.
    reflexivity. }
  unfold bind at 1 in E.
  pose proof (alert_loop_spec w settings today rows 0 0 s1) as L.
  pose proof (alert_loop_trips w settings today rows 0 0 s1) as T.
  rewrite Hvis in L.
  destruct (alert_loop w settings today rows 0 0 s1) as [[e|[ac ns]] s2].
  { exfalso. destruct e; try contradiction.
    - congruence.
    - destruct T as (n & Hn & Hm). cbn in Hn.
      rewrite Hno in Hm by lia. discriminate. }
  destruct L as (fresh' & Hfr' & Hadd & Hlog & Hac & Hns).
  rewrite Hfr in Hfr'. injection Hfr' as <-.
  destruct Hadd as (Hd & Hb & Hp & Hbr & Hv).
  cbn in Hd, Hb, Hp, Hbr, Hlog, T.
  unfold bind at 1 in E. rewrite execute_run in E. rewrite T in E.
  rewrite (Hno (S (List.length rows))) in E by lia.
  unfold bind at 1 in E. rewrite expired_loop_run in E.
  unfold bind at 1 in E. rewrite commit_run in E.
  cbn [tx round_trips sent flushed] in E. rewrite T in E.
  change (S (S (List.length rows))) with (2 + List.length rows)%nat in E.
  destruct (db_fault w (2 + List.length rows)) as [msg|].
  - injection E as <- <-. cbn [log]. split; [reflexivity | exact Hlog].
  - cbv zeta in E. cbn [logger_info fst snd tx log] in E.
    injection E as <- <-. cbn [log].
    split; [reflexivity|].
    rewrite Hlog, <- app_assoc. do 3 f_equal.
    unfold completed_message.
    rewrite Hac, Hns. unfold select_expired.
    cbn [txn flushed with_alerts batches]. rewrite Hb.
    rewrite !Z.add_0_l. reflexivity.
Qed.

(** X7. A pass of the expiry job that commits (no statement fails, no
    lookup finds two rows, the dates of the window exist) ends its log with
    one record whose three numbers are what the pass did: the alert rows the store
    gained, the candidates whose notification went through, and the batches
    that were due to be flagged as expired. Before it come the records of the
    notification service, one group for each candidate that got an alert. *)
Theorem completed_record_reports_the_pass (w : World) (settings : Settings)
  (st : Store) :
  calm w ->
  wf_store st = true ->
  dedup_ok settings (date_today w) st = true ->
  window_ok settings (date_today w) = true ->
  log (snd (check_expiring_batches w settings (open_session st)))
  = INFO "Starting expiry check task..."
    :: flat_map (gateway_log w settings (date_today w))
         (alerted settings (date_today w) st)
    ++ [INFO (completed_message
                (Z.of_nat (List.length (alerts (run_expiry w settings st)))
                 - Z.of_nat (List.length (alerts st)))
                (Z.of_nat
                   (List.length
                      (filter (gateway_ok w settings (date_today w))
                              (alerted settings (date_today w) st))))
                (Z.of_nat
                   (List.length
                      (filter (expired_due (date_today w)) (batches st)))))].
Proof.
  intros C W D K.
  destruct (run_expiry_ok w settings st C W D K) as [_ R].
  rewrite R. cbn [alerts].
  rewrite length_app, length_map, Nat2Z.inj_add.
  replace (Z.of_nat (List.length (alerts st))
           + Z.of_nat
               (List.length
                  (filter (no_alert_yet settings (date_today w) (alerts st))
                          (candidates settings (date_today w) st)))
           - Z.of_nat (List.length (alerts st)))
    with (Z.of_nat (List.length (alerted settings (date_today w) st)))
    by (unfold alerted; lia).
  rewrite check_expiring_batches_run.
  pose proof (expiry_pass_trace w settings st
                [INFO "Starting expiry check task..."] W D K
                (fun n _ => C n)) as P.
  cbv zeta in P. rewrite C in P.
  fold (expiry_attempt w settings st) in P.
  destruct (expiry_attempt w settings st) as [[e|a] s']; cbn [fst snd] in *.
  - destruct P as [P _]. discriminate.
  - destruct P as [_ P]. rewrite P. reflexivity.
Qed.

Lemma completed_record_reports_the_pass_witness :
  log (snd (check_expiring_batches quiet_world default_settings
              (open_session sample_store)))
  = [INFO "Starting expiry check task...";
     INFO "Alert notification prepared for Main: Milk expires in 1 days";
     INFO "Alert notification prepared for Main: Milk expires in 5 days";
     INFO "Expiry check completed: 2 alerts created, 2 notifications sent, 1 batches marked as expired"].
Proof.
  assert (C : calm quiet_world) by (intro n; reflexivity).
  assert (W : wf_store sample_store = true) by (vm_compute; reflexivity).
  assert (D : dedup_ok default_settings (date_today quiet_world) sample_store
              = true) by (vm_compute; reflexivity).
  assert (K : window_ok default_settings (date_today quiet_world) = true)
    by (vm_compute; reflexivity).
  rewrite (completed_record_reports_the_pass quiet_world default_settings
             sample_store C W D K).
  vm_compute. reflexivity.
Defined.

(** X8. The notifications of a pass go out before its commit: when the
    dates of the window exist, no lookup finds two rows and the commit is
    the first statement to fail, every candidate that was to get an
    alert has had its notification attempted and logged, the failure is
    logged after them, and the store keeps none of the alerts that were
    announced. *)
Theorem notifications_precede_the_commit (w : World) (settings : Settings)
  (st : Store) (msg : string) :
  wf_store st = true ->
  dedup_ok settings (date_today w) st = true ->
  window_ok settings (date_today w) = true ->
  (forall n, (n < commit_statement settings (date_today w) st)%nat ->
             db_fault w n = None) ->
  db_fault w (commit_statement settings (date_today w) st) = Some msg ->
  run_expiry w settings st = st
  /\ log (snd (check_expiring_batches w settings (open_session st)))
     = INFO "Starting expiry check task..."
       :: flat_map (gateway_log w settings (date_today w))
            (alerted settings (date_today w) st)
       ++ [ERROR ("Error in expiry check task: " +++ msg)].
Proof.
  intros W D K Hno Hf.
  unfold run_expiry, persisted.
  rewrite check_expiring_batches_run.
  pose proof (expiry_pass_trace w settings st
                [INFO "Starting expiry check task..."] W D K Hno) as P.
  pose proof (expiry_pass_spec w settings st
                [INFO "Starting expiry check task..."]) as S.
  cbv zeta in P. rewrite Hf in P.
  fold (expiry_attempt w settings st) in P, S.
  destruct (expiry_attempt w settings st) as [[e|a] s']; cbn [fst snd] in *.
  - destruct P as [P L]. injection P as ->. destruct S as [S _].
    cbn [tx database log str_exn]. split; [exact S|].
    rewrite L. reflexivity.
  - destruct P as [P _]. discriminate.
Qed.

Lemma notifications_precede_the_commit_witness :
  run_expiry failing_commit_world default_settings sample_store = sample_store
  /\ log (snd (check_expiring_batches failing_commit_world default_settings
                 (open_session sample_store)))
     = INFO "Starting expiry check task..."
       :: flat_map (gateway_log failing_commit_world default_settings
                      (date_today failing_commit_world))
            (alerted default_settings (date_today failing_commit_world)
               sample_store)
       ++ [ERROR ("Error in expiry check task: " +++ "connection lost")].
Proof.
  assert (W : wf_store sample_store = true) by (vm_compute; reflexivity).
  assert (D : dedup_ok default_settings (date_today failing_commit_world)
                sample_store = true) by (vm_compute; reflexivity).
  assert (K : commit_statement default_settings
                (date_today failing_commit_world) sample_store = 4%nat)
    by (vm_compute; reflexivity).
  assert (Hno : forall n,
             (n < commit_statement default_settings
                    (date_today failing_commit_world) sample_store)%nat ->
             db_fault failing_commit_world n = None).
  { rewrite K. intros n Hn.
    do 4 (destruct n as [|n]; [reflexivity|]). lia. }
  assert (Hf : db_fault failing_commit_world
                 (commit_statement default_settings
                    (date_today failing_commit_world) sample_store)
               = Some "connection lost"%string)
    by (rewrite K; reflexivity).
  assert (Kw : window_ok default_settings (date_today failing_commit_world)
               = true) by (vm_compute; reflexivity).
  exact (notifications_precede_the_commit failing_commit_world
           default_settings sample_store "connection lost" W D Kw Hno Hf).
Defined.

(** ** A window that is no date *)

(** X9. When [today] plus one of the two thresholds is no date (the number
    of days does not fit [timedelta], or the sum lies outside 0001-01-01 to
    9999-12-31), the pass raises [OverflowError] at lines 34-35, inside the
    [try]: no statement is sent, the store is left as it is, and the log
    holds the start record and the error with Python's message, that of the
    warning date when both fail. *)
Theorem window_overflow_aborts (w : World) (settings : Settings)
  (st : Store) :
  window_ok settings (date_today w) = false ->
  exists msg,
    (PyDate.add_days (date_today w) (EXPIRY_WARNING_DAYS settings) = inl msg
     \/ (exists warning_date,
           PyDate.add_days (date_today w) (EXPIRY_WARNING_DAYS settings)
           = inr warning_date)
        /\ PyDate.add_days (date_today w) (EXPIRY_CRITICAL_DAYS settings)
           = inl msg)
    /\ check_expiring_batches w settings (open_session st)
       = (inr tt,
          mkSession (mkTx st st [] 0)
            [INFO "Starting expiry check task...";
             ERROR ("Error in expiry check task: " +++ msg)]).
Proof.
  unfold window_ok, window.
  unfold check_expiring_batches, expiry_pass, open_session.
  unfold bind at 1. cbn [logger_info tx log app fst snd].
  unfold try_except. unfold bind at 1. unfold date_plus_days at 1.
  destruct (PyDate.add_days (date_today w) (EXPIRY_WARNING_DAYS settings))
    as [m|wd].
  - intros _. exists m. split; [left; reflexivity|]. reflexivity.
  - cbv beta iota delta [ret].
    unfold bind at 1. unfold date_plus_days at 1.
    destruct (PyDate.add_days (date_today w) (EXPIRY_CRITICAL_DAYS settings))
      as [m|cd]; [|discriminate].
    intros _. exists m. split; [|reflexivity].
    right. split; [exists wd|]; reflexivity.
Qed.

Lemma window_overflow_aborts_witness :
  check_expiring_batches quiet_world (mkSettings 3000000 1)
    (open_session sample_store)
  = (inr tt,
     mkSession (mkTx sample_store sample_store [] 0)
       [INFO "Starting expiry check task...";
        ERROR "Error in expiry check task: date value out of range"]).
Proof.
  assert (K : window_ok (mkSettings 3000000 1) (date_today quiet_world)
              = false) by (vm_compute; reflexivity).
  destruct (window_overflow_aborts quiet_world (mkSettings 3000000 1)
              sample_store K) as (msg & [A|[_ A]] & R).
  - assert (E : msg = "date value out of range"%string).
    { vm_compute in A. injection A as <-. reflexivity. }
    rewrite R, E. reflexivity.
  - vm_compute in A. discriminate.
Defined.
